(** * ComexChat: the ComexStat data client and the agent loop

    A shallow embedding of [comexstat.py] (the four remote-data
    operations) and of [agent.py] (the tool-calling graph and the
    extraction of the turn's outcome), followed by the properties the
    specification states about them.

    Conventions.
    - A Python [str] is a Rocq [string]; every character stands for one
      code point below 256.
    - Python values that travel as JSON are the type [pyval]. A dict is an
      association list in insertion order, as Python keeps it.
    - Code that prints, performs an HTTP request or raises runs in the
      monad [M]: a trace of events together with either a returned value
      or a raised exception. [try]/[except] is [try_except].
    - What the remote server answers, and how Python renders a value with
      [repr], are not code of this repository; they are the members of the
      classes [Network] and [PyFormat]. *)

From Stdlib Require Import ZArith String Ascii List.
From stdpp Require Import base gmap strings list.

Set Warnings "-register-all".
Set Default Proof Using "Type".

Local Open Scope string_scope.
Local Open Scope Z_scope.

(** ** Python values *)

Module Py.

(** A finite float is [m * 2^e]; only its being zero or not is observed. *)
Inductive pyval : Type :=
| PyNone
| PyBool (b : bool)
| PyInt (n : Z)
| PyFloat (m e : Z)
| PyStr (s : string)
| PyList (l : list pyval)
| PyDict (kvs : list (string * pyval)).

(** [bool(v)]: the truth value Python's [if v:] tests. *)
Definition truthy (v : pyval) : bool :=
  match v with
  | PyNone => false
  | PyBool b => b
  | PyInt n => negb (n =? 0)
  | PyFloat m _ => negb (m =? 0)
  | PyStr s => negb (String.eqb s "")
  | PyList l => match l with [] => false | _ => true end
  | PyDict kvs => match kvs with [] => false | _ => true end
  end.

(** [type(v).__name__], as it appears in an AttributeError message. *)
Definition type_name (v : pyval) : string :=
  match v with
  | PyNone => "NoneType"
  | PyBool _ => "bool"
  | PyInt _ => "int"
  | PyFloat _ _ => "float"
  | PyStr _ => "str"
  | PyList _ => "list"
  | PyDict _ => "dict"
  end.

Definition isinstance_dict (v : pyval) : bool :=
  match v with PyDict _ => true | _ => false end.

(** Lookup of a key in a dict's items. *)
Fixpoint dict_lookup (k : string) (kvs : list (string * pyval)) : option pyval :=
  match kvs with
  | [] => None
  | (k', v) :: rest => if String.eqb k' k then Some v else dict_lookup k rest
  end.

(** [repr(v)] is Python's own; [py_str] is [str(v)], which differs from
    [repr] on strings only. *)
Class PyFormat := { py_repr : pyval -> string }.

Definition py_str `{PyFormat} (v : pyval) : string :=
  match v with
  | PyStr s => s
  | _ => py_repr v
  end.

(** [str.isspace] on one code point below 256. *)
Definition is_space (c : ascii) : bool :=
  let n := Z.of_nat (nat_of_ascii c) in
  ((9 <=? n) && (n <=? 13)) || ((28 <=? n) && (n <=? 32))
  || (n =? 133) || (n =? 160).

Fixpoint lstrip (s : string) : string :=
  match s with
  | EmptyString => EmptyString
  | String c rest => if is_space c then lstrip rest else s
  end.

(** Removes trailing white space: a character is dropped when it is white
    space and nothing but white space follows it. *)
Fixpoint rstrip (s : string) : string :=
  match s with
  | EmptyString => EmptyString
  | String c rest =>
      match rstrip rest with
      | EmptyString => if is_space c then EmptyString else String c EmptyString
      | r => String c r
      end
  end.

(** [s.strip()] *)
Definition strip (s : string) : string := rstrip (lstrip s).

(** [sep.join(parts)] *)
Fixpoint join (sep : string) (parts : list string) : string :=
  match parts with
  | [] => ""
  | [p] => p
  | p :: rest => p ++ sep ++ join sep rest
  end.

End Py.
Export Py.

(** ** The effects of the client code: printing, HTTP, exceptions *)

Module Effects.

Inductive http_method := GET | POST.

(** One call of [client.get] or [client.post]. [req_json] is the [json=]
    body of a POST, [req_params] the [params=] dict of a GET, in insertion
    order; [req_timeout] is in seconds. *)
Record request := {
  req_method : http_method;
  req_url : string;
  req_headers : list (string * string);
  req_json : option pyval;
  req_params : list (string * pyval);
  req_timeout : Z
}.

(** What the client code reads of an [httpx.Response]. [json_body] is the
    outcome of [response.json()]: the parsed value, or the message of the
    decoding error it raises. *)
Record response := {
  status_code : Z;
  text : string;
  json_body : string + pyval
}.

(** The exception classes the client code meets, all below [Exception].
    [RequestError] carries [str(exc)] and the URL of [exc.request]. *)
Inductive exn :=
| HTTPStatusError (r : response)
| RequestError (msg : string) (request_url : string)
| JSONDecodeError (msg : string)
| AttributeError (msg : string)
| OtherException (msg : string).

(** [client.get]/[client.post] either raises or yields a response. *)
Inductive http_outcome :=
| Raises (e : exn)
| Responds (r : response).

Class Network := { send : request -> http_outcome }.

Inductive event :=
| Printed (line : string)
| Sent (req : request).

Inductive result (A : Type) :=
| Return (a : A)
| Raise (e : exn).
Arguments Return {A} a.
Arguments Raise {A} e.

Definition M (A : Type) : Type := list event * result A.

Definition ret {A} (a : A) : M A := ([], Return a).

Definition bind {A B} (m : M A) (k : A -> M B) : M B :=
  match m with
  | (t, Return a) => let '(t', r) := k a in ((t ++ t')%list, r)
  | (t, Raise e) => (t, Raise e)
  end.

Definition raise {A} (e : exn) : M A := ([], Raise e).

Definition print (line : string) : M unit := ([Printed line], Return tt).

(** [try: body except Exception as e: handler e]. A handler that does not
    match re-raises. *)
Definition try_except {A} (body : M A) (handler : exn -> M A) : M A :=
  match body with
  | (t, Return a) => (t, Return a)
  | (t, Raise e) => let '(t', r) := handler e in ((t ++ t')%list, r)
  end.

#[export] Instance M_ret : MRet M := @ret.
#[export] Instance M_bind : MBind M := fun A B k m => bind m k.

Definition trace {A} (m : M A) : list event := fst m.
Definition outcome {A} (m : M A) : result A := snd m.

Definition printed (t : list event) : list string :=
  omap (fun ev => match ev with Printed l => Some l | Sent _ => None end) t.

Definition sent (t : list event) : list request :=
  omap (fun ev => match ev with Sent r => Some r | Printed _ => None end) t.

Section Http.
Context `{Network}.

Definition http (req : request) : M response :=
  match send req with
  | Raises e => ([Sent req], Raise e)
  | Responds r => ([Sent req], Return r)
  end.

(** [response.raise_for_status()], as httpx has it: raises for every
    status outside 2xx, the 4xx and 5xx of the source's remark among them. *)
Definition raise_for_status (r : response) : M unit :=
  if (200 <=? status_code r) && (status_code r <=? 299) then mret tt
  else raise (HTTPStatusError r).

(** [response.json()] *)
Definition json (r : response) : M pyval :=
  match json_body r with
  | inl msg => raise (JSONDecodeError msg)
  | inr v => mret v
  end.
End Http.

(** [d.get(key, default)]; on a value that is not a dict the attribute
    [get] is missing. *)
Definition py_get (d : pyval) (key : string) (default : pyval) : M pyval :=
  match d with
  | PyDict kvs => mret (match dict_lookup key kvs with Some v => v | None => default end)
  | _ => raise (AttributeError
                  ("'" ++ type_name d ++ "' object has no attribute 'get'"))
  end.

(** [d[key] = v] on a dict's items: replaces in place, or appends. *)
Fixpoint dict_set (key : string) (v : pyval) (kvs : list (string * pyval))
  : list (string * pyval) :=
  match kvs with
  | [] => [(key, v)]
  | (k, w) :: rest =>
      if String.eqb k key then (k, v) :: rest else (k, w) :: dict_set key v rest
  end.

End Effects.
Export Effects.

(** ** comexstat.py *)

Module Comexstat.

Definition COMEXSTAT_API_BASE : string := "https://api-comexstat.mdic.gov.br".
Definition USER_AGENT : string := "MCP/1.0 (your-email@example.com)".

(** Tables of [fetch_auxiliary_table] that take every query parameter, and
    those that take [add], [language] and [search] only. *)
Definition params_all : gset string :=
  {[ "product-categories"; "ncm"; "hs"; "nbm"; "classifications" ]}.
Definition params_limited : gset string := {[ "economic-blocks" ]}.

Section Client.
Context `{PyFormat} `{Network}.

(** [repr] of the [httpx.URL] of a request. *)
Definition url_repr (u : string) : string :=
  "URL(" ++ py_repr (PyStr u) ++ ")".

Definition _fetch_comexstat_data
    (url : string) (payload : pyval) (headers : list (string * string))
  : M pyval :=
  try_except
    (print ("Sending request to " ++ url ++ " with payload: " ++ py_str payload) ;;
     response ← http {| req_method := POST; req_url := url;
                        req_headers := headers; req_json := Some payload;
                        req_params := []; req_timeout := 60 |} ;
     raise_for_status response ;;
     data ← json response ;
     print "Request successful, returning JSON data." ;;
     mret data)
    (fun exc =>
       match exc with
       | HTTPStatusError r =>
           print ("HTTP error occurred: " ++ py_str (PyInt (status_code r))
                  ++ " - " ++ text r) ;;
           try_except
             (details ← json r ;
              print ("Error details: " ++ py_str details))
             (fun _ => mret tt) ;;
           mret PyNone
       | RequestError msg request_url =>
           print ("An error occurred while requesting "
                  ++ url_repr request_url ++ ": " ++ msg) ;;
           mret PyNone
       | JSONDecodeError msg | AttributeError msg | OtherException msg =>
           print ("An unexpected error occurred during data fetching: " ++ msg) ;;
           mret PyNone
       end).

Definition dados_gerais
    (flow : string) (monthDetail : bool) (period : list (string * string))
    (filters : option (list (list (string * pyval))))
    (details : option (list string)) (metrics : option (list string))
  : M pyval :=
  let url := COMEXSTAT_API_BASE ++ "/general" in
  let details :=
    filter (fun d => d <> "year")
           (match details with Some ds => ds | None => [] end) in
  let payload :=
    PyDict [ ("flow", PyStr flow);
             ("monthDetail", PyBool monthDetail);
             ("period", PyDict (map (fun kv => (fst kv, PyStr (snd kv))) period));
             ("filters", match filters with
                         | Some fs => PyList (map PyDict fs)
                         | None => PyNone
                         end);
             ("details", PyList (map PyStr details));
             ("metrics", PyList (map PyStr
                           (match metrics with Some ms => ms | None => [] end))) ] in
  let headers :=
    [ ("Content-Type", "application/json");
      ("Accept", "application/json");
      ("User-Agent", USER_AGENT) ] in
  data ← _fetch_comexstat_data url payload headers ;
  if truthy data then
    print "Data fetched successfully, returning raw JSON structure." ;;
    inner ← py_get data "data" (PyDict []) ;
    py_get inner "list" PyNone
  else
    print "Returning None due to fetch error." ;;
    mret PyNone.

Definition dados_municipio
    (flow : string) (monthDetail : bool) (period : list (string * string))
    (filters : option (list (list (string * pyval))))
    (details : option (list string)) (metrics : option (list string))
  : M pyval :=
  let url := COMEXSTAT_API_BASE ++ "/cities" in
  let details :=
    filter (fun d => d <> "year")
           (match details with Some ds => ds | None => [] end) in
  let payload :=
    PyDict [ ("flow", PyStr flow);
             ("monthDetail", PyBool monthDetail);
             ("period", PyDict (map (fun kv => (fst kv, PyStr (snd kv))) period));
             ("filters", match filters with
                         | Some fs => PyList (map PyDict fs)
                         | None => PyNone
                         end);
             ("details", PyList (map PyStr details));
             ("metrics", PyList (map PyStr
                           (match metrics with Some ms => ms | None => [] end))) ] in
  let headers :=
    [ ("Content-Type", "application/json");
      ("Accept", "application/json");
      ("User-Agent", USER_AGENT) ] in
  data ← _fetch_comexstat_data url payload headers ;
  if truthy data then
    print "City data fetched successfully, returning raw JSON structure." ;;
    inner ← py_get data "data" (PyDict []) ;
    py_get inner "list" PyNone
  else
    print "Returning None due to fetch error for city data." ;;
    mret PyNone.

(** The query parameters [fetch_auxiliary_table] builds. *)
Definition query_params_of
    (table_name : string) (add language : option string)
    (page perPage : option Z) (search : option string)
  : list (string * pyval) :=
  let query_params : list (string * pyval) := [] in
  let query_params :=
    if bool_decide (table_name ∈ params_all)
       || bool_decide (table_name ∈ params_limited)
    then
      let query_params :=
        match add with
        | Some a => dict_set "add" (PyStr a) query_params
        | None => query_params
        end in
      let query_params :=
        match language with
        | Some l => dict_set "language" (PyStr l) query_params
        | None => query_params
        end in
      match search with
      | Some s => dict_set "search" (PyStr s) query_params
      | None => query_params
      end
    else query_params in
  if bool_decide (table_name ∈ params_all) then
    let query_params :=
      match page with
      | Some p => dict_set "page" (PyInt p) query_params
      | None => query_params
      end in
    match perPage with
    | Some p => dict_set "perPage" (PyInt p) query_params
    | None => query_params
    end
  else query_params.

(** The value inside [Some] is what a [return] in the [try] block gives;
    [None] is control falling out of the [try] statement. *)
Definition fetch_auxiliary_table
    (table_name : string) (add language : option string)
    (page perPage : option Z) (search : option string)
  : M pyval :=
  let url := COMEXSTAT_API_BASE ++ "/tables/" ++ table_name in
  let headers := [ ("Accept", "application/json"); ("User-Agent", USER_AGENT) ] in
  let query_params := query_params_of table_name add language page perPage search in
  returned ←
    try_except
      (print ("Fetching '" ++ table_name ++ "' table from " ++ url
              ++ " with params: " ++ py_str (PyDict query_params)) ;;
       response ← http {| req_method := GET; req_url := url;
                          req_headers := headers; req_json := None;
                          req_params := query_params; req_timeout := 60 |} ;
       raise_for_status response ;;
       data ← json response ;
       print ("'" ++ table_name
              ++ "' table data received, returning raw JSON structure.") ;;
       inner ← py_get data "data" PyNone ;
       lst ← py_get inner "list" PyNone ;
       mret (Some lst))
      (fun exc =>
         match exc with
         | HTTPStatusError r =>
             print ("HTTP error occurred while fetching '" ++ table_name
                    ++ "' table: " ++ py_str (PyInt (status_code r))
                    ++ " - " ++ text r) ;;
             mret None
         | RequestError msg request_url =>
             print ("An error occurred while requesting '" ++ table_name
                    ++ "' table " ++ url_repr request_url ++ ": " ++ msg) ;;
             mret None
         | JSONDecodeError msg | AttributeError msg | OtherException msg =>
             print ("An unexpected error occurred during '" ++ table_name
                    ++ "' table fetching: " ++ msg) ;;
             mret None
         end) ;
  match returned with
  | Some v => mret v
  | None =>
      print ("Returning None for '" ++ table_name
             ++ "' table due to previous errors.") ;;
      mret PyNone
  end.

Definition fetch_single_item_detail (table_name : string) (item_id : pyval)
  : M pyval :=
  let url := COMEXSTAT_API_BASE ++ "/tables/" ++ table_name ++ "/" ++ py_str item_id in
  let headers := [ ("Accept", "application/json"); ("User-Agent", USER_AGENT) ] in
  returned ←
    try_except
      (print ("Fetching detail for item '" ++ py_str item_id ++ "' from '"
              ++ table_name ++ "' table at " ++ url) ;;
       response ← http {| req_method := GET; req_url := url;
                          req_headers := headers; req_json := None;
                          req_params := []; req_timeout := 30 |} ;
       raise_for_status response ;;
       data ← json response ;
       print ("Detail for item '" ++ py_str item_id
              ++ "' received, extracting item data.") ;;
       let item_data :=
         match data with
         | PyDict kvs =>
             match dict_lookup "data" kvs with
             | Some (PyDict d) => PyDict d
             | _ => data
             end
         | _ => PyNone
         end in
       if truthy item_data then
         print ("Detail for item '" ++ py_str item_id
                ++ "' successfully extracted.") ;;
         mret (Some item_data)
       else
         print ("Could not extract item data dictionary from the response for '"
                ++ table_name ++ "/" ++ py_str item_id ++ "'.") ;;
         print ("Response JSON structure: " ++ py_str data) ;;
         mret None)
      (fun exc =>
         match exc with
         | HTTPStatusError r =>
             (if status_code r =? 404 then
                print ("Item '" ++ py_str item_id ++ "' not found in '"
                       ++ table_name ++ "' table (404).")
              else
                print ("HTTP error occurred while fetching detail for '"
                       ++ table_name ++ "/" ++ py_str item_id ++ "': "
                       ++ py_str (PyInt (status_code r)) ++ " - " ++ text r)) ;;
             mret None
         | RequestError msg request_url =>
             print ("An error occurred while requesting detail for '"
                    ++ table_name ++ "/" ++ py_str item_id ++ "' "
                    ++ url_repr request_url ++ ": " ++ msg) ;;
             mret None
         | JSONDecodeError msg | AttributeError msg | OtherException msg =>
             print ("An unexpected error occurred during detail fetching or processing for '"
                    ++ table_name ++ "/" ++ py_str item_id ++ "': " ++ msg) ;;
             mret None
         end) ;
  match returned with
  | Some v => mret v
  | None =>
      print ("Returning None for detail of '" ++ table_name ++ "/"
             ++ py_str item_id ++ "' due to previous errors.") ;;
      mret PyNone
  end.
End Client.

End Comexstat.

(** ** agent.py *)

Module Agent.

(** A tool call an assistant message carries: [name], [args], [id]. *)
Record tool_call := {
  tc_name : string;
  tc_args : list (string * pyval);
  tc_id : option string
}.

Inductive tool_status := success | error.

(** The message classes. [content] is a string or a list of parts, hence a
    [pyval]; a tool message has the name of its tool, if any. *)
Inductive BaseMessage :=
| SystemMessage (content : pyval)
| HumanMessage (content : pyval)
| AIMessage (content : pyval) (tool_calls : list tool_call)
| ToolMessage (content : pyval) (name : option string)
              (tool_call_id : option string) (status : tool_status).

(** The state is a dict with the one key [messages]; [None] is the dict
    without it. *)
Record AgentState := { messages : option (list BaseMessage) }.

(** The language model bound to the tools, and the tools themselves. The
    model answers a prompt with the content and the tool calls of an
    assistant message; a tool answers a call with a content and a status
    (the tool node turns a failing tool into the [error] status). A model
    that raises instead ends the turn with an error text; that path is
    left out. *)
Class Engine := {
  CUSTOM_SYSTEM_PROMPT : string;
  invoke : list BaseMessage -> pyval * list tool_call
}.

Class Tools := { run_tool : tool_call -> pyval * tool_status }.

Definition should_continue (state : AgentState) : string :=
  match messages state with
  | None => "end"
  | Some msgs =>
      match last msgs with
      | None => "end"
      | Some last_message =>
          match last_message with
          | AIMessage _ (_ :: _) => "continue"
          | _ => "end"
          end
      end
  end.

(** The reducer of the [messages] channel, [operator.add]. *)
Definition operator_add (state : AgentState) (new : list BaseMessage) : AgentState :=
  {| messages := Some (match messages state with Some old => old | None => [] end ++ new)%list |}.

Section Graph.
Context `{Engine} `{Tools}.

(** The node's update: the one new message. *)
Definition call_model (state : AgentState) : list BaseMessage :=
  let prompt_value :=
    (SystemMessage (PyStr CUSTOM_SYSTEM_PROMPT)
       :: match messages state with Some ms => ms | None => [] end) in
  let response := invoke prompt_value in
  [AIMessage (fst response) (snd response)].

(** The prebuilt tool node: one tool message for each call of the last
    assistant message, in the order of the calls. *)
Definition tool_node (state : AgentState) : list BaseMessage :=
  match messages state with
  | None => []
  | Some msgs =>
      match last msgs with
      | Some (AIMessage _ calls) =>
          map (fun call =>
                 let out := run_tool call in
                 ToolMessage (fst out) (Some (tc_name call)) (tc_id call) (snd out))
              calls
      | _ => []
      end
  end.

(** The graph: entry point [agent]; from [agent] the conditional edges
    [{"continue": "action", "end": END}] on [should_continue]; from
    [action] an edge back to [agent]. *)
Inductive node := agent | action | END.

Record run_state := { at_node : node; state : AgentState }.

Definition step (s : run_state) : run_state :=
  match at_node s with
  | agent =>
      let st := operator_add (state s) (call_model (state s)) in
      {| at_node := if String.eqb (should_continue st) "continue"
                    then action else END;
         state := st |}
  | action =>
      {| at_node := agent;
         state := operator_add (state s) (tool_node (state s)) |}
  | END => s
  end.

(** The steps of [app.ainvoke(agent_input)] from the entry point until
    [END]; [None] when [END] is not reached within [fuel] steps. The source
    passes no bound of its own; the bound the graph runtime applies then,
    and what becomes of a run it cuts, is [ainvoke_bounded] below. *)
Fixpoint run (fuel : nat) (s : run_state) : option AgentState :=
  match at_node s with
  | END => Some (state s)
  | _ =>
      match fuel with
      | O => None
      | S fuel' => run fuel' (step s)
      end
  end.

Definition ainvoke (fuel : nat) (agent_input : AgentState) : option AgentState :=
  run fuel {| at_node := agent; state := agent_input |}.
End Graph.

Definition nl : string := String (ascii_of_nat 10) "".

Section Outcome.
Context `{PyFormat}.

Definition format_tool_call (tool_call : tool_call) : string :=
  "* **Tool:** `" ++ tc_name tool_call ++ "`" ++ nl
  ++ "* **Arguments:** `" ++ py_str (PyDict (tc_args tool_call)) ++ "`".

(** The loop over the history that fills [tool_calls_info]. *)
Definition tool_calls_info (msgs : list BaseMessage) : list string :=
  fold_left
    (fun info message =>
       match message with
       | AIMessage _ (c :: cs) =>
           fold_left (fun info tool_call => (info ++ [format_tool_call tool_call])%list)
                     (c :: cs) info
       | _ => info
       end)
    msgs [].

(** [str(content or "").strip()] *)
Definition stripped_content (content : pyval) : string :=
  strip (py_str (if truthy content then content else PyStr "")).

Definition name_str (name : option string) : string :=
  py_str (match name with Some n => PyStr n | None => PyNone end).

(** The part of [run_agent_async] after [ainvoke] has returned
    [final_state]: the pair of [final_content] and [agent_result], then
    their combination. An assistant message always has the attribute
    [content], so the branch for its absence is never taken. *)
Definition agent_result_of (final_state : AgentState) : string :=
  let agent_result := "Error: Agent execution did not complete as expected." in
  match messages final_state with
  | None => "Agent execution did not produce the expected final state structure."
  | Some msgs =>
      let info := tool_calls_info msgs in
      let '(final_content, agent_result) :=
        match last msgs with
        | Some (AIMessage content calls) =>
            match calls with
            | [] =>
                let content := stripped_content content in
                if negb (String.eqb content "") then (Some content, agent_result)
                else (None, "Agent finished, but the final message was empty.")
            | _ :: _ =>
                (None, "Agent finished unexpectedly while planning to use tools.")
            end
        | Some (ToolMessage content name _ status) =>
            match status with
            | error =>
                let tool_error_content :=
                  "Tool '" ++ name_str name ++ "' failed: " ++ py_str content in
                (None, "An error occurred during tool execution: " ++ tool_error_content)
            | success =>
                (None, "Agent finished after using tool '" ++ name_str name
                       ++ "', but didn't provide a final summary.")
            end
        | _ => (None, "Agent finished, but the final state is unexpected.")
        end in
      match final_content with
      | Some answer =>
          match info with
          | [] => answer
          | _ :: _ =>
              answer ++ nl ++ nl ++ "---" ++ nl ++ "**Tools Used:**" ++ nl
              ++ join (nl ++ nl) info
          end
      | None => agent_result
      end
  end.

(** One turn once the session and the graph are set up: the graph runs
    on the user's query and the result is read off the final state. *)
Definition run_agent_async `{Engine} `{Tools} (fuel : nat) (user_query : string)
  : option string :=
  final_state ← ainvoke fuel {| messages := Some [HumanMessage (PyStr user_query)] |} ;
  Some (agent_result_of final_state).
End Outcome.

End Agent.

(** ** Vocabulary of the properties *)

Module Vocabulary.
Import Comexstat Agent.

(** The request a statistics query posts. *)
Definition post_request (url : string) (payload : pyval)
    (headers : list (string * string)) : request :=
  {| req_method := POST; req_url := url; req_headers := headers;
     req_json := Some payload; req_params := []; req_timeout := 60 |}.

(** The entry of a payload dict under [key]. *)
Definition payload_entry (key : string) (req : request) : option pyval :=
  match req_json req with
  | Some (PyDict kvs) => dict_lookup key kvs
  | _ => None
  end.

(** A filter dict is a "year" entry when its ["filter"] is ["year"]. *)
Definition is_year_filter (f : pyval) : bool :=
  match f with
  | PyDict kvs =>
      match dict_lookup "filter" kvs with
      | Some (PyStr s) => String.eqb s "year"
      | _ => false
      end
  | _ => false
  end.

(** A list value of the payload holds a "year" entry: the string itself
    (details) or a filter on it (filters). *)
Definition has_year_entry (v : pyval) : bool :=
  match v with
  | PyList l =>
      existsb (fun x => match x with
                        | PyStr s => String.eqb s "year"
                        | _ => is_year_filter x
                        end) l
  | _ => false
  end.

Definition is_success (r : response) : bool :=
  (200 <=? status_code r) && (status_code r <=? 299).

(** The request met a transport error (the call raised), an error status,
    or a body that is not JSON. *)
Definition failed (o : http_outcome) : bool :=
  match o with
  | Raises _ => true
  | Responds r =>
      negb (is_success r)
      || match json_body r with inl _ => true | inr _ => false end
  end.

(** The JSON value of a 2xx answer. *)
Definition parsed (o : http_outcome) : option pyval :=
  match o with
  | Raises _ => None
  | Responds r =>
      if is_success r
      then match json_body r with inr body => Some body | inl _ => None end
      else None
  end.

(** The value under data -> list of a body, when both levels are dicts
    holding the key. *)
Definition nested_list (body : pyval) : option pyval :=
  match body with
  | PyDict kvs =>
      match dict_lookup "data" kvs with
      | Some (PyDict inner) => dict_lookup "list" inner
      | _ => None
      end
  | _ => None
  end.

(** The item a supplied optional argument contributes to a dict. *)
Definition supplied {A} (key : string) (inj : A -> pyval) (arg : option A)
  : list (string * pyval) :=
  match arg with
  | Some a => [(key, inj a)]
  | None => []
  end.

(** Every request the computation sends gets the answer [o]. *)
Definition answered_with `{Network} {A} (m : M A) (o : http_outcome) : Prop :=
  forall req, req ∈ sent (trace m) -> send req = o.

(** What [fetch_single_item_detail] takes for the item in a body. *)
Definition item_of (body : pyval) : pyval :=
  match body with
  | PyDict kvs =>
      match dict_lookup "data" kvs with
      | Some (PyDict d) => PyDict d
      | _ => body
      end
  | _ => PyNone
  end.

(** The four operations of the client, with their arguments. *)
Inductive client_call :=
| Dados_gerais (flow : string) (monthDetail : bool) (period : list (string * string))
    (filters : option (list (list (string * pyval))))
    (details metrics : option (list string))
| Dados_municipio (flow : string) (monthDetail : bool) (period : list (string * string))
    (filters : option (list (list (string * pyval))))
    (details metrics : option (list string))
| Fetch_auxiliary_table (table_name : string) (add language : option string)
    (page perPage : option Z) (search : option string)
| Fetch_single_item_detail (table_name : string) (item_id : pyval).

Definition perform `{PyFormat} `{Network} (c : client_call) : M pyval :=
  match c with
  | Dados_gerais f m p fs ds ms => dados_gerais f m p fs ds ms
  | Dados_municipio f m p fs ds ms => dados_municipio f m p fs ds ms
  | Fetch_auxiliary_table t a l p pp s => fetch_auxiliary_table t a l p pp s
  | Fetch_single_item_detail t i => fetch_single_item_detail t i
  end.

(** Every tool call requested by an assistant message of the conversation,
    in the order of emission. *)
Definition tool_call_requests (msgs : list BaseMessage) : list tool_call :=
  flat_map (fun m => match m with AIMessage _ calls => calls | _ => [] end) msgs.

(** The audit block that follows the answer: nothing when no tool was
    called. *)
Definition audit_trail `{PyFormat} (calls : list tool_call) : string :=
  match calls with
  | [] => ""
  | _ =>
      nl ++ nl ++ "---" ++ nl ++ "**Tools Used:**" ++ nl
      ++ join (nl ++ nl) (map format_tool_call calls)
  end.

(** Sample surroundings: a renderer that shows the type of a value, a
    network that is down, and servers with a fixed answer. *)
Definition sample_format : PyFormat :=
  {| py_repr v := "<" ++ type_name v ++ ">" |}.

Definition network_down : Network :=
  {| send req := Raises (RequestError "All connection attempts failed" (req_url req)) |}.

Definition server_answering (status : Z) (body : string + pyval) : Network :=
  {| send _ := Responds {| status_code := status; text := ""; json_body := body |} |}.

Definition default_period : list (string * string) :=
  [("from", "2024-01"); ("to", "2024-12")].

(** An engine that asks for the same lookup whatever it is shown, one that
    looks a country up once and then answers, and tools that echo. *)
Definition lookup_call : tool_call :=
  {| tc_name := "fetch_auxiliary_table";
     tc_args := [("table_name", PyStr "countries"); ("search", PyStr "Argentina")];
     tc_id := Some "call_1" |}.

Definition restless_engine : Engine :=
  {| CUSTOM_SYSTEM_PROMPT := ""; invoke _ := (PyStr "", [lookup_call]) |}.

Definition one_lookup_engine : Engine :=
  {| CUSTOM_SYSTEM_PROMPT := "";
     invoke prompt :=
       match prompt with
       | [_; _] => (PyStr "", [lookup_call])
       | _ => (PyStr "Argentina: 063", [])
       end |}.

Definition echo_tools : Tools :=
  {| run_tool call := (PyStr (tc_name call), success) |}.

(** A renderer that shows a dict of strings the way Python does. *)
Definition flat_format : PyFormat :=
  {| py_repr v :=
       let item (kv : string * pyval) :=
         "'" ++ fst kv ++ "': "
         ++ match snd kv with
            | PyStr s => "'" ++ s ++ "'"
            | w => "<" ++ type_name w ++ ">"
            end in
       match v with
       | PyDict kvs => "{" ++ join ", " (map item kvs) ++ "}"
       | PyStr s => "'" ++ s ++ "'"
       | PyNone => "None"
       | w => "<" ++ type_name w ++ ">"
       end |}.

(** An engine that looks the country up, then asks for the statistics with
    the code it found, then answers. *)
Definition statistics_call : tool_call :=
  {| tc_name := "dados_gerais";
     tc_args := [("flow", PyStr "export")];
     tc_id := Some "call_2" |}.

Definition two_step_engine : Engine :=
  {| CUSTOM_SYSTEM_PROMPT := "";
     invoke prompt :=
       match prompt with
       | [_; _] => (PyStr "", [lookup_call])
       | [_; _; _; _] => (PyStr "", [statistics_call])
       | _ => (PyStr " Exports to Argentina: US$ 10 ", [])
       end |}.

End Vocabulary.
Export Vocabulary.

(** ** agent.py: the session around a turn *)

Module Session.
Import Agent.

(** The exception classes [run_agent_async] tells apart, each with its
    [str]; all are below [Exception], and a constructor stands for the
    class with its subclasses. What the function prints is left out: the
    model is of the value it returns. *)
Inductive exception :=
| AsyncioTimeoutError (msg : string)
| TimeoutError (msg : string)
| ValueError (msg : string)
| RuntimeError (msg : string)
| ConnectionRefusedError (msg : string)
| OtherError (msg : string).

Definition str (e : exception) : string :=
  match e with
  | AsyncioTimeoutError msg | TimeoutError msg | ValueError msg
  | RuntimeError msg | ConnectionRefusedError msg | OtherError msg => msg
  end.

(** Whether [asyncio.TimeoutError] is the built-in [TimeoutError] depends
    on the Python that runs the code (it is from 3.11 on). *)
Class Python := { asyncio_timeout_is_builtin : bool }.

(** What the surroundings of a turn do: entering the two context managers
    ([connect]), [session.initialize()], [load_mcp_tools(session)] with the
    names of the tools it yields, the construction of the graph ([build]:
    binding the tools, the prompt, the nodes and edges, [compile]), a
    failure of [ainvoke], and leaving the context managers ([close]). *)
Class Mcp := {
  SERVER_SCRIPT_PATH : string;
  connect : option exception;
  initialize : option exception;
  load_mcp_tools : exception + list string;
  build : option exception;
  ainvoke_failure : option exception;
  close : option exception
}.

(** A computation that raises or returns. *)
Definition E (A : Type) : Type := exception + A.

(** [str(TOOL_LOAD_TIMEOUT)], the float 45.0. *)
Definition TOOL_LOAD_TIMEOUT : string := "45.0".

Section Turn.
Context `{Python} `{Mcp}.

(** [isinstance(e, asyncio.TimeoutError)] and [isinstance(e, TimeoutError)] *)
Definition is_asyncio_timeout (e : exception) : bool :=
  match e with
  | AsyncioTimeoutError _ => true
  | TimeoutError _ => asyncio_timeout_is_builtin
  | _ => false
  end.

Definition is_timeout (e : exception) : bool :=
  match e with
  | TimeoutError _ => true
  | AsyncioTimeoutError _ => asyncio_timeout_is_builtin
  | _ => false
  end.

(** The [try] around [session.initialize()]. *)
Definition initialize_session : E unit :=
  match initialize with
  | None => inr tt
  | Some init_e =>
      if is_asyncio_timeout init_e then
        inl (TimeoutError ("Timeout (" ++ TOOL_LOAD_TIMEOUT
                           ++ "s) occurred during MCP session initialization."))
      else
        inl (RuntimeError ("Error during MCP session initialization: " ++ str init_e))
  end.

(** The [try] around the loading of the tools; the [ValueError] for an
    empty list is raised inside it. *)
Definition load_tools : E (list string) :=
  let attempt : E (list string) :=
    match load_mcp_tools with
    | inl e => inl e
    | inr loaded_tools =>
        match loaded_tools with
        | [] => inl (ValueError "No tools loaded from the MCP server.")
        | _ :: _ => inr loaded_tools
        end
    end in
  match attempt with
  | inr tools => inr tools
  | inl load_e =>
      if is_asyncio_timeout load_e then
        inl (TimeoutError ("Timeout (" ++ TOOL_LOAD_TIMEOUT
                           ++ "s) occurred during tool loading."))
      else
        inl (RuntimeError ("Error during tool loading: " ++ str load_e))
  end.

(** The body of the [try] that ends with the compiled graph. *)
Definition build_graph : E unit :=
  match initialize_session with
  | inl e => inl e
  | inr _ =>
      match load_tools with
      | inl e => inl e
      | inr _ =>
          match build with
          | Some e => inl e
          | None => inr tt
          end
      end
  end.

(** That [try] with its two handlers: the text each one returns, or the
    graph. *)
Definition setup : string + unit :=
  match build_graph with
  | inr app => inr app
  | inl setup_e =>
      if is_timeout setup_e
         || match setup_e with ValueError _ | RuntimeError _ => true | _ => false end
      then inl ("Error during setup: " ++ str setup_e)
      else inl ("Unexpected error during setup: " ++ str setup_e)
  end.

(** What runs inside the two [async with]: the setup, then the graph on the
    query. The value is what the function is about to return; [None] is a
    graph still running when the fuel is out. *)
Definition session_body `{PyFormat} `{Engine} `{Tools} (fuel : nat) (user_query : string)
  : E (option string) :=
  match setup with
  | inl error_message => inr (Some error_message)
  | inr _ =>
      match ainvoke_failure with
      | Some agent_run_e =>
          inr (Some ("An error occurred during agent execution (ainvoke): "
                     ++ str agent_run_e))
      | None => inr (Agent.run_agent_async fuel user_query)
      end
  end.

(** The two [async with] around a body: an exception on the way in skips
    the body, one on the way out replaces what the body gave. *)
Definition with_session {A} (body : E A) : E A :=
  match connect with
  | Some e => inl e
  | None =>
      match close with
      | Some e => inl e
      | None => body
      end
  end.

(** The whole of [run_agent_async]: the outer [try] with its three
    handlers. *)
Definition run_agent_async_session `{PyFormat} `{Engine} `{Tools}
    (fuel : nat) (user_query : string) : E (option string) :=
  match with_session (session_body fuel user_query) with
  | inr agent_result => inr agent_result
  | inl e =>
      match e with
      | ConnectionRefusedError _ =>
          inr (Some ("Error: Connection refused. Is the MCP server ("
                     ++ SERVER_SCRIPT_PATH ++ ") running or startable?"))
      | _ =>
          if is_asyncio_timeout e then
            inr (Some "Error: Timeout occurred during MCP connection/setup.")
          else
            inr (Some ("An unexpected error occurred during MCP connection/setup phase: "
                       ++ str e))
      end
  end.
End Turn.

End Session.

(** ** agent.py: the run under the graph runtime *)

Module Bounded.
Import Agent.

(** The graph runtime allows a run a number of steps and raises its
    recursion error, with a text of its own, when [END] is not reached
    within them. [ainvoke] is called without a config, so the limit is the
    runtime's default. Both are the graph library's, not this source's. *)
Class Runtime := {
  recursion_limit : nat;
  recursion_error : string
}.

Section Run.
Context `{Engine} `{Tools} `{Runtime}.

(** [app.ainvoke(agent_input)]: the final state, or the text of the
    recursion error raised. *)
Definition ainvoke_bounded (agent_input : AgentState) : string + AgentState :=
  match ainvoke recursion_limit agent_input with
  | Some final_state => inr final_state
  | None => inl recursion_error
  end.

(** The [try] around [ainvoke] in [run_agent_async], with its handler. *)
Definition run_agent_async_bounded `{PyFormat} (user_query : string) : string :=
  match ainvoke_bounded {| messages := Some [HumanMessage (PyStr user_query)] |} with
  | inr final_state => agent_result_of final_state
  | inl agent_run_e =>
      "An error occurred during agent execution (ainvoke): " ++ agent_run_e
  end.
End Run.

(** The documented default of the runtime: 25 steps. *)
Definition default_runtime : Runtime :=
  {| recursion_limit := 25;
     recursion_error :=
       "Recursion limit of 25 reached without hitting a stop condition." |}.

End Bounded.

(** ** agent.py: showing the result *)

Module App.

(** [str.lower] on one code point below 256: the letters A-Z and the
    capital letters of Latin-1. *)
Definition lower_char (c : ascii) : ascii :=
  let n := nat_of_ascii c in
  if ((65 <=? n) && (n <=? 90))%nat
     || ((192 <=? n) && (n <=? 222) && negb (n =? 215))%nat
  then ascii_of_nat (n + 32) else c.

Fixpoint lower (s : string) : string :=
  match s with
  | EmptyString => EmptyString
  | String c rest => String (lower_char c) (lower rest)
  end.

(** [needle in s] *)
Fixpoint contains (needle s : string) : bool :=
  String.prefix needle s
  || match s with
     | EmptyString => false
     | String _ rest => contains needle rest
     end.

Inductive display := st_error | st_markdown.

(** What the chat shows for the value [run_agent_async] returned, a string:
    the box it goes to and the text. *)
Definition show_response (returned_value : string) : display * string :=
  let response := strip returned_value in
  let response :=
    if String.eqb response "" then "Error: Agent returned an empty response."
    else response in
  (if contains "error" (lower response) || contains "failed" (lower response)
   then st_error else st_markdown,
   response).

End App.

(** ** More vocabulary *)

Module Vocabulary2.
Import Agent Session App.

(** A message a node of the graph adds: the model's or a tool's. *)
Definition is_reply (m : BaseMessage) : bool :=
  match m with
  | AIMessage _ _ | ToolMessage _ _ _ _ => true
  | _ => false
  end.

(** The text starts with a character that is not white space. *)
Definition starts_solid (s : string) : bool :=
  match s with
  | EmptyString => false
  | String c _ => negb (is_space c)
  end.

(** Something around the turn failed: the connection, the setup, the run
    of the graph, or the closing of the session. *)
Definition turn_failed `{Python} `{Mcp} : Prop :=
  is_Some connect \/ is_Some close
  \/ (exists e, build_graph = inl e) \/ is_Some ainvoke_failure.

(** Sample surroundings: a Python where the two timeouts are one class, a
    session whose server offers no tools, one that works, and one whose
    server cannot be reached. *)
Definition python_3_11 : Python := {| asyncio_timeout_is_builtin := true |}.

Definition session_without_tools : Mcp :=
  {| SERVER_SCRIPT_PATH := "comexstat.py"; connect := None; initialize := None;
     load_mcp_tools := inr []; build := None; ainvoke_failure := None;
     close := None |}.

Definition session_without_tools_failing_to_close : Mcp :=
  {| SERVER_SCRIPT_PATH := "comexstat.py"; connect := None; initialize := None;
     load_mcp_tools := inr []; build := None; ainvoke_failure := None;
     close := Some (OtherError "unhandled errors in a TaskGroup") |}.

Definition working_session : Mcp :=
  {| SERVER_SCRIPT_PATH := "comexstat.py"; connect := None; initialize := None;
     load_mcp_tools := inr ["dados_gerais"; "fetch_auxiliary_table"];
     build := None; ainvoke_failure := None; close := None |}.

Definition unreachable_server : Mcp :=
  {| SERVER_SCRIPT_PATH := "comexstat.py";
     connect := Some (ConnectionRefusedError "[Errno 111] Connection refused");
     initialize := None; load_mcp_tools := inr ["dados_gerais"];
     build := None; ainvoke_failure := None; close := None |}.

End Vocabulary2.
Export Vocabulary2.

(** * Properties *)

(** ** The definitions on sample inputs *)

Example strip_sample : strip "  US$ 10 " = "US$ 10".
Proof. reflexivity. Qed.

Example strip_blank : strip (" " ++ Agent.nl ++ " ") = "".
Proof. reflexivity. Qed.

Example join_sample : join ", " ["a"; "b"; "c"] = "a, b, c".
Proof. reflexivity. Qed.

Example query_params_ncm :
  Comexstat.query_params_of "ncm" None (Some "en") (Some 2) None (Some "soy")
  = [("language", PyStr "en"); ("search", PyStr "soy"); ("page", PyInt 2)].
Proof. reflexivity. Qed.

Example query_params_economic_blocks :
  Comexstat.query_params_of "economic-blocks" None (Some "en") (Some 2) None (Some "sul")
  = [("language", PyStr "en"); ("search", PyStr "sul")].
Proof. reflexivity. Qed.

Example query_params_countries :
  Comexstat.query_params_of "countries" (Some "x") (Some "en") (Some 2) (Some 10)
    (Some "Argentina")
  = [].
Proof. reflexivity. Qed.

Example should_continue_samples :
  Agent.should_continue {| Agent.messages := None |} = "end"
  /\ Agent.should_continue {| Agent.messages := Some [] |} = "end"
  /\ Agent.should_continue
       {| Agent.messages := Some [Agent.HumanMessage (PyStr "hi")] |} = "end"
  /\ Agent.should_continue
       {| Agent.messages := Some [Agent.AIMessage (PyStr "") [lookup_call]] |}
     = "continue".
Proof. repeat split. Qed.

(** ** Running client code symbolically *)

(** Unfolds the monad and splits on what the network and the response
    decide, until the trace and the outcome are explicit. *)
Ltac eval_client :=
  cbn [mbind mret M_bind M_ret bind ret raise print try_except
       trace outcome fst snd sent printed omap app status_code
       json_body text] in *.

Ltac run_client :=
  unfold http, raise_for_status, json, py_get;
  repeat (eval_client;
          match goal with
          | |- context [send ?r] =>
              let o := fresh "o" in
              destruct (send r) as [[]|] eqn:o
          | |- context [match json_body ?r with _ => _ end] =>
              destruct (json_body r) eqn:?
          | |- context [if ?b then _ else _] => destruct b eqn:?
          | |- context [match ?v with PyNone => _ | _ => _ end] =>
              destruct v eqn:?
          end);
  eval_client.

Section ClientFacts.
Context `{PyFormat} `{Network}.
Import Comexstat.

Lemma fetch_sent url payload headers :
  sent (trace (_fetch_comexstat_data url payload headers))
  = [post_request url payload headers].
Proof.
  unfold _fetch_comexstat_data, post_request. run_client; reflexivity.
Qed.

(** What [_fetch_comexstat_data] returns: the parsed body of a 2xx answer,
    [None] otherwise; it never raises. *)
Lemma fetch_outcome url payload headers :
  outcome (_fetch_comexstat_data url payload headers)
  = Return (match send (post_request url payload headers) with
            | Responds r =>
                if is_success r
                then match json_body r with inr v => v | inl _ => PyNone end
                else PyNone
            | Raises _ => PyNone
            end).
Proof.
  unfold _fetch_comexstat_data, post_request, is_success.
  run_client; congruence.
Qed.

Lemma failed_parsed o : failed o = true <-> parsed o = None.
Proof.
  unfold failed, parsed. destruct o as [e | r]; [tauto |].
  destruct (is_success r), (json_body r); cbn; split; congruence.
Qed.

Lemma trace_bind {A B} (m : M A) (k : A -> M B) :
  trace (m ≫= k)
  = (trace m ++ match outcome m with
                | Return a => trace (k a)
                | Raise _ => []
                end)%list.
Proof.
  destruct m as [t [a | e]]; cbn; [destruct (k a) | rewrite app_nil_r]; reflexivity.
Qed.

Lemma outcome_bind {A B} (m : M A) (k : A -> M B) :
  outcome (m ≫= k)
  = match outcome m with
    | Return a => outcome (k a)
    | Raise e => Raise e
    end.
Proof. destruct m as [t [a | e]]; cbn; [destruct (k a) |]; reflexivity. Qed.

Lemma sent_app t1 t2 : sent (t1 ++ t2) = (sent t1 ++ sent t2)%list.
Proof. apply omap_app. Qed.

(** Reading the nested list off a body sends nothing. *)
Lemma sent_extract body (line : string) :
  sent (trace (print line ;; inner ← py_get body "data" (PyDict []) ;
               py_get inner "list" PyNone)) = [].
Proof.
  rewrite !trace_bind, !sent_app. cbn [print outcome snd].
  destruct body as [| | | | | |kvs]; try reflexivity.
  cbn [py_get mret M_ret ret outcome snd].
  destruct (match dict_lookup "data" kvs with Some v => v | None => PyDict [] end);
    reflexivity.
Qed.

(** The run of a statistics query: one POST, whose payload has the details
    without "year" and the filters as given; the result is read off the
    parsed body. *)
Lemma dados_gerais_run flow monthDetail period filters details metrics :
  exists req,
    sent (trace (dados_gerais flow monthDetail period filters details metrics)) = [req]
    /\ req_method req = POST
    /\ req_url req = COMEXSTAT_API_BASE ++ "/general"
    /\ payload_entry "details" req
       = Some (PyList (map PyStr (filter (fun d => d <> "year")
                                         (match details with Some ds => ds | None => [] end))))
    /\ payload_entry "filters" req
       = Some (match filters with Some fs => PyList (map PyDict fs) | None => PyNone end)
    /\ outcome (dados_gerais flow monthDetail period filters details metrics)
       = match parsed (send req) with
         | Some body =>
             if truthy body
             then outcome (inner ← py_get body "data" (PyDict []) ;
                           py_get inner "list" PyNone)
             else Return PyNone
         | None => Return PyNone
         end.
Proof.
  eexists. unfold dados_gerais. rewrite trace_bind, outcome_bind, sent_app.
  rewrite fetch_sent, fetch_outcome.
  split.
  { match goal with |- context [truthy ?d] => destruct (truthy d) end;
      [rewrite sent_extract |]; reflexivity. }
  do 4 (split; [reflexivity |]).
  unfold parsed, post_request. destruct (send _) as [e | r]; [reflexivity |].
  destruct (is_success r); [| reflexivity].
  destruct (json_body r) as [msg | body]; [reflexivity |].
  destruct (truthy body); [| reflexivity].
  rewrite outcome_bind. reflexivity.
Qed.

Lemma dados_municipio_run flow monthDetail period filters details metrics :
  exists req,
    sent (trace (dados_municipio flow monthDetail period filters details metrics)) = [req]
    /\ req_method req = POST
    /\ req_url req = COMEXSTAT_API_BASE ++ "/cities"
    /\ payload_entry "details" req
       = Some (PyList (map PyStr (filter (fun d => d <> "year")
                                         (match details with Some ds => ds | None => [] end))))
    /\ payload_entry "filters" req
       = Some (match filters with Some fs => PyList (map PyDict fs) | None => PyNone end)
    /\ outcome (dados_municipio flow monthDetail period filters details metrics)
       = match parsed (send req) with
         | Some body =>
             if truthy body
             then outcome (inner ← py_get body "data" (PyDict []) ;
                           py_get inner "list" PyNone)
             else Return PyNone
         | None => Return PyNone
         end.
Proof.
  eexists. unfold dados_municipio. rewrite trace_bind, outcome_bind, sent_app.
  rewrite fetch_sent, fetch_outcome.
  split.
  { match goal with |- context [truthy ?d] => destruct (truthy d) end;
      [rewrite sent_extract |]; reflexivity. }
  do 4 (split; [reflexivity |]).
  unfold parsed, post_request. destruct (send _) as [e | r]; [reflexivity |].
  destruct (is_success r); [| reflexivity].
  destruct (json_body r) as [msg | body]; [reflexivity |].
  destruct (truthy body); [| reflexivity].
  rewrite outcome_bind. reflexivity.
Qed.

(** The run of a table lookup: one GET with the query parameters built
    from the arguments; it never raises, and yields the nested list of a
    parsed body or [None]. *)
Lemma fetch_auxiliary_table_run table_name add language page perPage search :
  exists req,
    sent (trace (fetch_auxiliary_table table_name add language page perPage search))
    = [req]
    /\ req_method req = GET
    /\ req_url req = COMEXSTAT_API_BASE ++ "/tables/" ++ table_name
    /\ req_params req = query_params_of table_name add language page perPage search
    /\ outcome (fetch_auxiliary_table table_name add language page perPage search)
       = Return (match parsed (send req) ≫= nested_list with
                 | Some lst => lst
                 | None => PyNone
                 end).
Proof.
  eexists. unfold fetch_auxiliary_table.
  split.
  { run_client; reflexivity. }
  do 3 (split; [reflexivity |]).
  unfold parsed, nested_list, is_success, http, raise_for_status, json.
  destruct (send _) as [e | r]; [destruct e; reflexivity |].
  eval_client.
  destruct (_ && _); [| reflexivity].
  destruct (json_body r) as [msg | body]; [reflexivity |].
  destruct body as [| | | | | |kvs]; try reflexivity.
  eval_client. cbn [py_get option_bind]. eval_client.
  destruct (dict_lookup "data" kvs) as [[| | | | | |inner] |]; reflexivity.
Qed.

Lemma fetch_single_item_detail_run table_name item_id :
  exists req,
    sent (trace (fetch_single_item_detail table_name item_id)) = [req]
    /\ req_method req = GET
    /\ req_url req
       = COMEXSTAT_API_BASE ++ "/tables/" ++ table_name ++ "/" ++ py_str item_id
    /\ outcome (fetch_single_item_detail table_name item_id)
       = Return (match parsed (send req) with
                 | Some body => if truthy (item_of body) then item_of body else PyNone
                 | None => PyNone
                 end)
    /\ (forall r, send req = Responds r -> is_success r = false ->
        printed (trace (fetch_single_item_detail table_name item_id))
        = [ "Fetching detail for item '" ++ py_str item_id ++ "' from '"
            ++ table_name ++ "' table at " ++ req_url req;
            if status_code r =? 404
            then "Item '" ++ py_str item_id ++ "' not found in '" ++ table_name
                 ++ "' table (404)."
            else "HTTP error occurred while fetching detail for '" ++ table_name
                 ++ "/" ++ py_str item_id ++ "': " ++ py_str (PyInt (status_code r))
                 ++ " - " ++ text r;
            "Returning None for detail of '" ++ table_name ++ "/" ++ py_str item_id
            ++ "' due to previous errors." ]).
Proof.
  eexists. unfold fetch_single_item_detail.
  split.
  { run_client; reflexivity. }
  do 2 (split; [reflexivity |]).
  split.
  - unfold parsed, item_of, is_success.
    run_client; cbn in *; try congruence.
  - intros r Hreq Hstatus. unfold http, raise_for_status.
    rewrite Hreq. eval_client.
    unfold is_success in Hstatus. rewrite Hstatus. eval_client.
    destruct (status_code r =? 404); reflexivity.
Qed.

End ClientFacts.

(** ** The statistics queries and "year" *)

Section YearEntries.
Context `{PyFormat} `{Network}.
Import Comexstat.

(** The list comprehension leaves no "year" among the details. *)
Lemma details_have_no_year (details : list string) :
  has_year_entry (PyList (map PyStr (filter (fun d => d <> "year") details))) = false.
Proof.
  cbn [has_year_entry]. apply not_true_iff_false. intros Hex.
  apply existsb_exists in Hex as (x & Hin & Hx).
  apply in_map_iff in Hin as (d & <- & Hd).
  apply list_elem_of_In, list_elem_of_filter in Hd as [Hne _].
  apply String.eqb_eq in Hx. contradiction.
Qed.

(** The filters reach the payload as they were given. *)
Lemma filters_keep_year (fs : list (list (string * pyval))) :
  has_year_entry (PyList (map PyDict fs))
  = existsb (fun kvs => is_year_filter (PyDict kvs)) fs.
Proof.
  cbn [has_year_entry]. induction fs as [| kvs fs IH]; [reflexivity |].
  cbn [map existsb]. rewrite IH. reflexivity.
Qed.

(** C1, on the code: with details ["year", "country"] and a filter on
    "year", each statistics query posts one request whose details are
    ["country"] and whose filters still hold the "year" entry. *)
Theorem year_filter_is_transmitted :
  let year_filter := [("filter", PyStr "year"); ("values", PyList [PyInt 2023])] in
  (exists req,
      sent (trace (dados_gerais "import" false default_period
                     (Some [year_filter]) (Some ["year"; "country"]) None)) = [req]
      /\ payload_entry "details" req = Some (PyList [PyStr "country"])
      /\ payload_entry "filters" req = Some (PyList [PyDict year_filter])
      /\ has_year_entry (PyList [PyDict year_filter]) = true)
  /\ (exists req,
      sent (trace (dados_municipio "export" false default_period
                     (Some [year_filter]) (Some ["year"; "country"]) None)) = [req]
      /\ payload_entry "details" req = Some (PyList [PyStr "country"])
      /\ payload_entry "filters" req = Some (PyList [PyDict year_filter])
      /\ has_year_entry (PyList [PyDict year_filter]) = true).
Proof.
  intros year_filter. split.
  - destruct (dados_gerais_run "import" false default_period
                (Some [year_filter]) (Some ["year"; "country"]) None)
      as (req & Hsent & _ & _ & Hdetails & Hfilters & _).
    exists req. repeat split; assumption || reflexivity.
  - destruct (dados_municipio_run "export" false default_period
                (Some [year_filter]) (Some ["year"; "country"]) None)
      as (req & Hsent & _ & _ & Hdetails & Hfilters & _).
    exists req. repeat split; assumption || reflexivity.
Qed.

End YearEntries.

(** ** Failures of the transport *)

Section Failures.
Context `{PyFormat} `{Network}.
Import Comexstat.

(** C4: when the request of an operation meets a transport error, an
    error status or a body that is not JSON, the operation raises nothing
    and returns None. *)
Theorem failure_returns_None (c : client_call) (o : http_outcome) :
  answered_with (perform c) o ->
  failed o = true ->
  outcome (perform c) = Return PyNone.
Proof.
  intros Hsend Hfailed. apply failed_parsed in Hfailed.
  unfold answered_with in Hsend.
  destruct c as [f m p fs ds ms | f m p fs ds ms | t a l p pp s | t i];
    cbn [perform] in *.
  - destruct (dados_gerais_run f m p fs ds ms) as (req & Hsent & _ & _ & _ & _ & ->).
    rewrite (Hsend req), Hfailed; [reflexivity | rewrite Hsent; apply list_elem_of_here].
  - destruct (dados_municipio_run f m p fs ds ms) as (req & Hsent & _ & _ & _ & _ & ->).
    rewrite (Hsend req), Hfailed; [reflexivity | rewrite Hsent; apply list_elem_of_here].
  - destruct (fetch_auxiliary_table_run t a l p pp s) as (req & Hsent & _ & _ & _ & ->).
    rewrite (Hsend req), Hfailed; [reflexivity | rewrite Hsent; apply list_elem_of_here].
  - destruct (fetch_single_item_detail_run t i) as (req & Hsent & _ & _ & -> & _).
    rewrite (Hsend req), Hfailed; [reflexivity | rewrite Hsent; apply list_elem_of_here].
Qed.

End Failures.

Lemma failure_returns_None_witness :
  @outcome pyval
    (@perform sample_format network_down
       (Dados_gerais "import" false default_period None None None))
  = Return PyNone.
Proof.
  apply (@failure_returns_None sample_format network_down
           (Dados_gerais "import" false default_period None None None)
           (Raises (RequestError "All connection attempts failed"
                      (Comexstat.COMEXSTAT_API_BASE ++ "/general")))).
  - intros req Hreq. vm_compute in Hreq.
    apply list_elem_of_In in Hreq. destruct Hreq as [<- | []]. reflexivity.
  - reflexivity.
Defined.

(** ** The single-item lookup and HTTP 404 *)

Section NotFound.
Context `{PyFormat} `{Network}.
Import Comexstat.

(** C5: on an error status the single-item lookup returns None without
    raising; a 404 is logged as "not found", any other error status as an
    HTTP error, and neither as a failed request. *)
Theorem not_found_is_logged_apart (table_name : string) (item_id : pyval) (r : response) :
  answered_with (fetch_single_item_detail table_name item_id) (Responds r) ->
  is_success r = false ->
  let first_line :=
    "Fetching detail for item '" ++ py_str item_id ++ "' from '" ++ table_name
    ++ "' table at " ++ COMEXSTAT_API_BASE ++ "/tables/" ++ table_name ++ "/"
    ++ py_str item_id in
  let not_found_line :=
    "Item '" ++ py_str item_id ++ "' not found in '" ++ table_name ++ "' table (404)." in
  let http_error_line :=
    "HTTP error occurred while fetching detail for '" ++ table_name ++ "/"
    ++ py_str item_id ++ "': " ++ py_str (PyInt (status_code r)) ++ " - " ++ text r in
  let last_line :=
    "Returning None for detail of '" ++ table_name ++ "/" ++ py_str item_id
    ++ "' due to previous errors." in
  outcome (fetch_single_item_detail table_name item_id) = Return PyNone
  /\ (status_code r = 404 ->
      printed (trace (fetch_single_item_detail table_name item_id))
      = [first_line; not_found_line; last_line])
  /\ (status_code r <> 404 ->
      printed (trace (fetch_single_item_detail table_name item_id))
      = [first_line; http_error_line; last_line])
  /\ not_found_line <> http_error_line.
Proof.
  intros Hsend Hstatus. cbn zeta.
  destruct (fetch_single_item_detail_run table_name item_id)
    as (req & Hsent & _ & Hurl & Hout & Hlog).
  assert (Hreq : send req = Responds r).
  { apply Hsend. rewrite Hsent. apply list_elem_of_here. }
  specialize (Hlog r Hreq Hstatus). rewrite Hurl in Hlog.
  split; [| split; [| split]].
  - rewrite Hout, Hreq. cbn [parsed]. rewrite Hstatus. reflexivity.
  - intros H404. rewrite Hlog, H404. reflexivity.
  - intros H404. apply Z.eqb_neq in H404. rewrite Hlog, H404. reflexivity.
  - cbn. discriminate.
Qed.

End NotFound.

Lemma not_found_is_logged_apart_witness :
  let lookup :=
    @Comexstat.fetch_single_item_detail sample_format
      (server_answering 404 (inl "Expecting value")) "countries" (PyInt 999) in
  outcome lookup = Return PyNone
  /\ printed (trace lookup)
     = [ "Fetching detail for item '<int>' from 'countries' table at https://api-comexstat.mdic.gov.br/tables/countries/<int>";
         "Item '<int>' not found in 'countries' table (404).";
         "Returning None for detail of 'countries/<int>' due to previous errors." ].
Proof.
  destruct (@not_found_is_logged_apart sample_format
              (server_answering 404 (inl "Expecting value")) "countries" (PyInt 999)
              {| status_code := 404; text := ""; json_body := inl "Expecting value" |}
              (fun req _ => eq_refl) eq_refl)
    as (Hout & H404 & _).
  split; [exact Hout | exact (H404 eq_refl)].
Defined.

(** ** The query parameters of a table lookup *)

Section QueryParams.
Context `{PyFormat} `{Network}.
Import Comexstat.

Lemma params_all_limited (table_name : string) :
  table_name ∈ params_all ∪ params_limited
  <-> table_name ∈ ({[ "product-categories"; "ncm"; "hs"; "nbm";
                       "classifications"; "economic-blocks" ]} : gset string).
Proof. unfold params_all, params_limited. set_solver. Qed.

(** The query parameters, spelled out. *)
Lemma query_params_of_supplied table_name add language page perPage search :
  query_params_of table_name add language page perPage search
  = ((if bool_decide (table_name ∈ params_all ∪ params_limited)
      then supplied "add" PyStr add ++ supplied "language" PyStr language
           ++ supplied "search" PyStr search
      else [])
     ++ (if bool_decide (table_name ∈ params_all)
         then supplied "page" PyInt page ++ supplied "perPage" PyInt perPage
         else []))%list.
Proof.
  unfold query_params_of.
  replace (bool_decide (table_name ∈ params_all ∪ params_limited))
    with (bool_decide (table_name ∈ params_all)
          || bool_decide (table_name ∈ params_limited)).
  2:{ apply eq_true_iff_eq.
      rewrite orb_true_iff, !bool_decide_eq_true, elem_of_union. reflexivity. }
  destruct (bool_decide (table_name ∈ params_all)),
    (bool_decide (table_name ∈ params_limited)),
    add, language, search, page, perPage; reflexivity.
Qed.

Lemma dict_lookup_app key (l1 l2 : list (string * pyval)) :
  dict_lookup key (l1 ++ l2)%list
  = match dict_lookup key l1 with
    | Some v => Some v
    | None => dict_lookup key l2
    end.
Proof.
  induction l1 as [| [k v] l1 IH]; [reflexivity |].
  cbn. destruct (String.eqb k key); [reflexivity | exact IH].
Qed.

Lemma dict_lookup_supplied {A} key key' (inj : A -> pyval) (arg : option A) :
  dict_lookup key (supplied key' inj arg)
  = if String.eqb key' key then inj <$> arg else None.
Proof.
  destruct arg; cbn; destruct (String.eqb key' key); reflexivity.
Qed.

(** C6: a table lookup sends one request and raises nothing; [add],
    [language] and [search] are in its query string exactly when supplied
    for one of the six tables taking them, [page] and [perPage] exactly
    when supplied for one of the five; there is no other parameter, and
    for any other table there is none at all. *)
Theorem unsupported_params_are_dropped
    (table_name : string) (add language : option string)
    (page perPage : option Z) (search : option string) :
  let six : gset string :=
    {[ "product-categories"; "ncm"; "hs"; "nbm"; "classifications";
       "economic-blocks" ]} in
  let five : gset string :=
    {[ "product-categories"; "ncm"; "hs"; "nbm"; "classifications" ]} in
  let call := fetch_auxiliary_table table_name add language page perPage search in
  exists req,
    sent (trace call) = [req]
    /\ dict_lookup "add" (req_params req)
       = (if bool_decide (table_name ∈ six) then PyStr <$> add else None)
    /\ dict_lookup "language" (req_params req)
       = (if bool_decide (table_name ∈ six) then PyStr <$> language else None)
    /\ dict_lookup "search" (req_params req)
       = (if bool_decide (table_name ∈ six) then PyStr <$> search else None)
    /\ dict_lookup "page" (req_params req)
       = (if bool_decide (table_name ∈ five) then PyInt <$> page else None)
    /\ dict_lookup "perPage" (req_params req)
       = (if bool_decide (table_name ∈ five) then PyInt <$> perPage else None)
    /\ (forall key, key ∉ ["add"; "language"; "search"; "page"; "perPage"] ->
        dict_lookup key (req_params req) = None)
    /\ (table_name ∉ six -> req_params req = [])
    /\ exists v, outcome call = Return v.
Proof.
  intros six five call.
  destruct (fetch_auxiliary_table_run table_name add language page perPage search)
    as (req & Hsent & _ & _ & Hparams & Hout).
  exists req. split; [exact Hsent |].
  rewrite Hparams, query_params_of_supplied.
  change (params_all ∪ params_limited) with six. change params_all with five.
  assert (Hsub : bool_decide (table_name ∈ five) = true ->
                 bool_decide (table_name ∈ six) = true).
  { rewrite !bool_decide_eq_true. subst six five. apply elem_of_union_l. }
  repeat split.
  1-5: destruct (bool_decide (table_name ∈ six)),
         (bool_decide (table_name ∈ five));
       rewrite ?dict_lookup_app, ?dict_lookup_supplied; cbn;
       try reflexivity;
       destruct add, language, search, page, perPage; reflexivity.
  - intros key Hkey.
    assert (Hne : forall k, k ∈ ["add"; "language"; "search"; "page"; "perPage"] ->
                            String.eqb k key = false).
    { intros k Hk. apply String.eqb_neq. intros ->. contradiction. }
    destruct (bool_decide (table_name ∈ six)),
      (bool_decide (table_name ∈ five));
      rewrite ?dict_lookup_app, ?dict_lookup_supplied, ?Hne; try reflexivity;
      repeat constructor.
  - intros Hnot. apply (bool_decide_eq_false_2 (table_name ∈ six)) in Hnot.
    rewrite Hnot.
    destruct (bool_decide (table_name ∈ five)); [| reflexivity].
    specialize (Hsub eq_refl). congruence.
  - eexists. exact Hout.
Qed.

End QueryParams.

(** ** Answers without the nested list *)

Section Shapes.
Context `{PyFormat} `{Network}.
Import Comexstat.

(** A body that is falsy gives None from both statistics queries. *)
Lemma statistics_falsy_body (c : client_call) (o : http_outcome) (body : pyval) :
  (exists f m p fs ds ms, c = Dados_gerais f m p fs ds ms
                          \/ c = Dados_municipio f m p fs ds ms) ->
  answered_with (perform c) o ->
  parsed o = Some body ->
  truthy body = false ->
  outcome (perform c) = Return PyNone.
Proof.
  intros (f & m & p & fs & ds & ms & [-> | ->]) Hsend Hbody Hfalsy;
    cbn [perform] in *.
  - destruct (dados_gerais_run f m p fs ds ms) as (req & Hsent & _ & _ & _ & _ & ->).
    rewrite (Hsend req), Hbody, Hfalsy;
      [reflexivity | rewrite Hsent; apply list_elem_of_here].
  - destruct (dados_municipio_run f m p fs ds ms) as (req & Hsent & _ & _ & _ & _ & ->).
    rewrite (Hsend req), Hbody, Hfalsy;
      [reflexivity | rewrite Hsent; apply list_elem_of_here].
Qed.

(** A dict without the key "data", or whose "data" is a dict without the
    key "list", gives None from both statistics queries. *)
Lemma statistics_missing_key (c : client_call) (o : http_outcome)
    (kvs : list (string * pyval)) :
  (exists f m p fs ds ms, c = Dados_gerais f m p fs ds ms
                          \/ c = Dados_municipio f m p fs ds ms) ->
  answered_with (perform c) o ->
  parsed o = Some (PyDict kvs) ->
  dict_lookup "data" kvs = None
  \/ (exists inner, dict_lookup "data" kvs = Some (PyDict inner)
                    /\ dict_lookup "list" inner = None) ->
  outcome (perform c) = Return PyNone.
Proof.
  intros (f & m & p & fs & ds & ms & Hc) Hsend Hbody Hshape.
  assert (Hget : outcome (inner ← py_get (PyDict kvs) "data" (PyDict []) ;
                          py_get inner "list" PyNone) = Return PyNone).
  { destruct Hshape as [Hdata | (inner & Hdata & Hlist)]; cbn; rewrite Hdata; cbn;
      [| rewrite Hlist]; reflexivity. }
  destruct Hc as [-> | ->]; cbn [perform] in *.
  - destruct (dados_gerais_run f m p fs ds ms) as (req & Hsent & _ & _ & _ & _ & ->).
    rewrite (Hsend req), Hbody by (rewrite Hsent; apply list_elem_of_here).
    rewrite Hget. destruct (truthy _); reflexivity.
  - destruct (dados_municipio_run f m p fs ds ms) as (req & Hsent & _ & _ & _ & _ & ->).
    rewrite (Hsend req), Hbody by (rewrite Hsent; apply list_elem_of_here).
    rewrite Hget. destruct (truthy _); reflexivity.
Qed.

(** Whatever the shape of the body, a table lookup gives None when the
    body has no nested list. *)
Lemma table_lookup_without_nested_list table_name add language page perPage search
    (o : http_outcome) (body : pyval) :
  answered_with (fetch_auxiliary_table table_name add language page perPage search) o ->
  parsed o = Some body ->
  nested_list body = None ->
  outcome (fetch_auxiliary_table table_name add language page perPage search)
  = Return PyNone.
Proof.
  intros Hsend Hbody Hshape.
  destruct (fetch_auxiliary_table_run table_name add language page perPage search)
    as (req & Hsent & _ & _ & _ & ->).
  rewrite (Hsend req), Hbody by (rewrite Hsent; apply list_elem_of_here).
  cbn. rewrite Hshape. reflexivity.
Qed.

End Shapes.

(** On an empty JSON object the table lookup meets the missing attribute
    inside its [try] block and logs it. *)
Example table_lookup_empty_object :
  let lookup :=
    @Comexstat.fetch_auxiliary_table sample_format
      (server_answering 200 (inr (PyDict []))) "countries" None None None None None in
  outcome lookup = Return PyNone
  /\ printed (trace lookup)
     = [ "Fetching 'countries' table from https://api-comexstat.mdic.gov.br/tables/countries with params: <dict>";
         "'countries' table data received, returning raw JSON structure.";
         "An unexpected error occurred during 'countries' table fetching: 'NoneType' object has no attribute 'get'";
         "Returning None for 'countries' table due to previous errors." ].
Proof. split; reflexivity. Qed.

(** C10, on the code: a server answers 200 with the JSON body
    [{"data": null}], which has no nested list. The table lookup returns
    None; both statistics queries raise an AttributeError to their caller. *)
Theorem null_data_raises_from_statistics `{PyFormat} :
  let body := PyDict [("data", PyNone)] in
  let server := server_answering 200 (inr body) in
  let raised := Raise (AttributeError "'NoneType' object has no attribute 'get'") in
  @parsed (@send server (post_request "" PyNone [])) = Some body
  /\ nested_list body = None
  /\ outcome (@Comexstat.dados_gerais _ server
                "import" false default_period None None None) = raised
  /\ outcome (@Comexstat.dados_municipio _ server
                "export" false default_period None None None) = raised
  /\ outcome (@Comexstat.fetch_auxiliary_table _ server
                "countries" None None None None None) = Return PyNone.
Proof. repeat split. Qed.

(** ** The decision of the loop *)

Section Loop.
Import Agent.
Context `{Engine} `{Tools}.

Lemma should_continue_snoc (pre : list BaseMessage) (m : BaseMessage) :
  should_continue {| messages := Some (pre ++ [m])%list |}
  = match m with
    | AIMessage _ (_ :: _) => "continue"
    | _ => "end"
    end.
Proof. unfold should_continue. cbn [messages]. rewrite last_snoc. reflexivity. Qed.

(** One step from [agent]: the model's message is appended, and the next
    node is [action] when it carries tool calls, [END] when it carries none. *)
Lemma step_agent (st : AgentState) :
  let response :=
    invoke (SystemMessage (PyStr CUSTOM_SYSTEM_PROMPT)
              :: match messages st with Some ms => ms | None => [] end) in
  step {| at_node := agent; state := st |}
  = {| at_node := match snd response with [] => END | _ :: _ => action end;
       state := operator_add st [AIMessage (fst response) (snd response)] |}.
Proof.
  cbn zeta. unfold step. cbn [at_node state]. f_equal.
  unfold operator_add, call_model. rewrite should_continue_snoc.
  destruct (snd (invoke _)); reflexivity.
Qed.

(** C3: [should_continue] answers "continue" exactly when the last message
    of the state is an assistant message with at least one tool call, and
    "end" in every other case; so the step from [agent] goes to [END]
    exactly when the message the model just gave carries no tool call. *)
Theorem should_continue_iff_tool_calls (st : AgentState) :
  (should_continue st = "continue"
   <-> exists pre content call calls,
         messages st = Some (pre ++ [AIMessage content (call :: calls)])%list)
  /\ (should_continue st = "continue" \/ should_continue st = "end")
  /\ (at_node (step {| at_node := agent; state := st |}) = END
      <-> snd (invoke (SystemMessage (PyStr CUSTOM_SYSTEM_PROMPT)
                         :: match messages st with Some ms => ms | None => [] end))
          = [])
  /\ (at_node (step {| at_node := agent; state := st |}) = END
      \/ at_node (step {| at_node := agent; state := st |}) = action).
Proof.
  split; [| split; [| split]].
  - split.
    + unfold should_continue. destruct (messages st) as [msgs |]; [| discriminate].
      destruct (last msgs) as [m |] eqn:Hlast; [| discriminate].
      apply last_Some in Hlast as [pre ->].
      destruct m as [c | c | c [| call calls] | c n i s]; try discriminate.
      intros _. exists pre, c, call, calls. reflexivity.
    + intros (pre & content & call & calls & Hst).
      destruct st as [ms]. cbn in Hst. subst ms.
      apply should_continue_snoc.
  - unfold should_continue. destruct (messages st) as [msgs |]; [| right; reflexivity].
    destruct (last msgs) as [[c | c | c [| call calls] | c n i s] |]; auto.
  - rewrite step_agent. cbn [at_node].
    destruct (snd (invoke _)); split; congruence.
  - rewrite step_agent. cbn [at_node]. destruct (snd (invoke _)); auto.
Qed.

(** A run that is not at [END] and never gets there uses up any fuel. *)
Lemma run_without_end (fuel : nat) (s : run_state) :
  (forall prompt, snd (invoke prompt) <> []) ->
  at_node s <> END ->
  run fuel s = None.
Proof.
  intros Hcalls. revert s. induction fuel as [| fuel IH]; intros s Hs.
  - destruct s as [[] st]; cbn in *; congruence.
  - destruct s as [[] st]; cbn [run at_node] in *; try congruence.
    + apply IH. rewrite step_agent. cbn [at_node].
      destruct (snd (invoke _)) eqn:E; [| discriminate].
      exfalso. exact (Hcalls _ E).
    + apply IH. cbn. discriminate.
Qed.

(** A run ends only in a state whose last message is an assistant message
    without tool calls. *)
Lemma run_ends_on_plain_answer (fuel : nat) (s : run_state) (st : AgentState) :
  at_node s <> END ->
  run fuel s = Some st ->
  exists pre content, messages st = Some (pre ++ [AIMessage content []])%list.
Proof.
  revert s. induction fuel as [| fuel IH]; intros s Hs Hrun.
  - destruct s as [[] st0]; cbn in *; congruence.
  - destruct s as [[] st0]; cbn [run at_node] in *; try congruence.
    + rewrite step_agent in Hrun. cbn zeta in Hrun.
      destruct (snd (invoke _)) as [| call calls] eqn:E.
      * destruct fuel; cbn in Hrun; injection Hrun as <-;
          eexists _, _; reflexivity.
      * apply IH in Hrun; [exact Hrun | discriminate].
    + apply IH in Hrun; [exact Hrun | discriminate].
Qed.

End Loop.

(** The engine that looks a country up once ends its run in three steps. *)
Example one_lookup_run :
  @Agent.ainvoke one_lookup_engine echo_tools 3
    {| Agent.messages := Some [Agent.HumanMessage (PyStr "Argentina?")] |}
  = Some {| Agent.messages :=
              Some [ Agent.HumanMessage (PyStr "Argentina?");
                     Agent.AIMessage (PyStr "") [lookup_call];
                     Agent.ToolMessage (PyStr "fetch_auxiliary_table")
                       (Some "fetch_auxiliary_table") (Some "call_1") Agent.success;
                     Agent.AIMessage (PyStr "Argentina: 063") [] ] |}.
Proof. reflexivity. Qed.

(** C9, as stated, fails: the engine whose every message carries a tool
    call does not keep the loop going for ever. Under the runtime's default
    limit its run is cut, and the turn ends with the text for a failed
    run. *)
Lemma restless_run_is_cut :
  @Bounded.ainvoke_bounded restless_engine echo_tools Bounded.default_runtime
    {| Agent.messages := Some [Agent.HumanMessage (PyStr "Argentina?")] |}
  = inl "Recursion limit of 25 reached without hitting a stop condition."
  /\ @Bounded.run_agent_async_bounded restless_engine echo_tools
       Bounded.default_runtime sample_format "Argentina?"
     = "An error occurred during agent execution (ainvoke): Recursion limit of 25 reached without hitting a stop condition.".
Proof. split; reflexivity. Qed.

(** C9, amended: the code passes no bound of its own, and there is an
    engine, every message of which carries a tool call, under which the
    graph reaches [END] after no number of steps. Its run is cut by the
    runtime's limit, whatever that limit is, and the turn returns the text
    for a failed run. A run that does return a state, under any engine,
    ends on an assistant message without tool calls. *)
Theorem restless_run_ends_at_the_limit `{PyFormat} `{Bounded.Runtime} :
  (exists engine : Agent.Engine,
      (forall prompt, exists call calls,
          snd (@Agent.invoke engine prompt) = call :: calls)
      /\ forall (tools : Agent.Tools) (user_query : string),
           (forall steps : nat,
               @Agent.ainvoke engine tools steps
                 {| Agent.messages := Some [Agent.HumanMessage (PyStr user_query)] |}
               = None)
           /\ @Bounded.ainvoke_bounded engine tools _
                {| Agent.messages := Some [Agent.HumanMessage (PyStr user_query)] |}
              = inl Bounded.recursion_error
           /\ @Bounded.run_agent_async_bounded engine tools _ _ user_query
              = "An error occurred during agent execution (ainvoke): "
                ++ Bounded.recursion_error)
  /\ (forall (engine : Agent.Engine) (tools : Agent.Tools)
             (user_query : string) (final_state : Agent.AgentState),
        @Bounded.ainvoke_bounded engine tools _
          {| Agent.messages := Some [Agent.HumanMessage (PyStr user_query)] |}
        = inr final_state ->
        exists pre content,
          Agent.messages final_state
          = Some (pre ++ [Agent.AIMessage content []])%list).
Proof.
  split.
  - exists restless_engine. split.
    + intros prompt. exists lookup_call, []. reflexivity.
    + intros tools user_query.
      assert (Hnever : forall steps,
                 @Agent.ainvoke restless_engine tools steps
                   {| Agent.messages := Some [Agent.HumanMessage (PyStr user_query)] |}
                 = None).
      { intros steps. apply run_without_end; discriminate. }
      split; [exact Hnever |].
      unfold Bounded.run_agent_async_bounded, Bounded.ainvoke_bounded.
      rewrite Hnever. split; reflexivity.
  - intros engine tools user_query final_state Hrun.
    unfold Bounded.ainvoke_bounded in Hrun.
    destruct (Agent.ainvoke _ _) as [st |] eqn:Hsteps; [| discriminate].
    injection Hrun as ->.
    apply run_ends_on_plain_answer in Hsteps; [exact Hsteps | discriminate].
Qed.

(** ** White space, lower case and substrings *)

Section Text.
Import App.

Lemma append_cons (c : ascii) (a b : string) :
  String c a ++ b = String c (a ++ b).
Proof. reflexivity. Qed.

Lemma append_assoc (a b c : string) : (a ++ b) ++ c = a ++ (b ++ c).
Proof.
  induction a as [| x a IH]; [reflexivity |].
  rewrite !append_cons, IH. reflexivity.
Qed.

Lemma starts_solid_app (a b : string) :
  starts_solid a = true -> starts_solid (a ++ b) = true.
Proof. destruct a; [discriminate | intros Ha; exact Ha]. Qed.

Lemma lstrip_solid (s : string) : starts_solid s = true -> lstrip s = s.
Proof.
  destruct s as [| c s]; [reflexivity |]. cbn.
  intros Hc. apply negb_true_iff in Hc. rewrite Hc. reflexivity.
Qed.

Lemma lstrip_cases (s : string) : lstrip s = "" \/ starts_solid (lstrip s) = true.
Proof.
  induction s as [| c s IH]; [left; reflexivity |].
  cbn [lstrip]. destruct (is_space c) eqn:Hc; [exact IH |].
  right. cbn. rewrite Hc. reflexivity.
Qed.

Lemma rstrip_solid (c : ascii) (s : string) :
  is_space c = false -> rstrip (String c s) = String c (rstrip s).
Proof. intros Hc. cbn [rstrip]. rewrite Hc. destruct (rstrip s); reflexivity. Qed.

Lemma rstrip_app (a b : string) :
  rstrip b <> "" -> rstrip (a ++ b) = a ++ rstrip b.
Proof.
  intros Hb. induction a as [| c a IH]; [reflexivity |].
  rewrite !append_cons. cbn [rstrip]. rewrite IH.
  destruct (a ++ rstrip b) eqn:E; [| reflexivity].
  destruct a; [cbn in E; contradiction | discriminate].
Qed.

(** Stripping a text that starts with a solid character keeps that
    character, so the result is not empty. *)
Lemma strip_solid (s : string) :
  starts_solid s = true ->
  starts_solid (strip s) = true /\ String.eqb (strip s) "" = false.
Proof.
  intros Hs. unfold strip. rewrite lstrip_solid by exact Hs.
  destruct s as [| c s]; [discriminate |].
  cbn in Hs. apply negb_true_iff in Hs.
  rewrite rstrip_solid by exact Hs. cbn. rewrite Hs. split; reflexivity.
Qed.

Lemma strip_starts_solid (s : string) :
  String.eqb (strip s) "" = false -> starts_solid (strip s) = true.
Proof.
  unfold strip. destruct (lstrip_cases s) as [-> | Hsolid]; [discriminate |].
  intros _. rewrite <- (lstrip_solid (lstrip s)) at 1 by exact Hsolid.
  apply (strip_solid (lstrip s) Hsolid).
Qed.

Lemma lower_app (a b : string) : lower (a ++ b) = lower a ++ lower b.
Proof.
  induction a as [| c a IH]; [reflexivity |].
  rewrite append_cons. cbn [lower]. rewrite IH. reflexivity.
Qed.

Lemma prefix_app (needle a b : string) :
  String.prefix needle a = true -> String.prefix needle (a ++ b) = true.
Proof.
  revert a. induction needle as [| n needle IH]; intros a.
  { intros _. destruct (a ++ b); reflexivity. }
  destruct a as [| c a]; [discriminate |].
  rewrite append_cons. cbn [String.prefix].
  destruct (ascii_dec n c); [apply IH | discriminate].
Qed.

Lemma contains_app (needle a b : string) :
  contains needle a = true -> contains needle (a ++ b) = true.
Proof.
  induction a as [| c a IH].
  - cbn. rewrite orb_false_r. intros Hp.
    destruct needle; [destruct b; reflexivity | discriminate].
  - rewrite append_cons. cbn [contains]. intros Ha.
    apply orb_true_iff in Ha as [Hp | Hrest].
    + rewrite <- append_cons, (prefix_app _ _ _ Hp). reflexivity.
    + rewrite (IH Hrest). apply orb_true_r.
Qed.

Lemma prefix_self (needle rest : string) :
  String.prefix needle (needle ++ rest) = true.
Proof.
  induction needle as [| c needle IH]; [destruct rest; reflexivity |].
  rewrite append_cons. cbn [String.prefix].
  destruct (ascii_dec c c); [exact IH | contradiction].
Qed.

Lemma contains_self (needle rest : string) : contains needle (needle ++ rest) = true.
Proof.
  destruct (needle ++ rest) eqn:E; cbn [contains]; rewrite <- E, prefix_self;
    reflexivity.
Qed.

Lemma contains_app_r (needle a b : string) :
  contains needle b = true -> contains needle (a ++ b) = true.
Proof.
  intros Hb. induction a as [| c a IH]; [exact Hb |].
  rewrite append_cons. cbn [contains]. rewrite IH. apply orb_true_r.
Qed.

(** A text between two others is found in the whole. *)
Lemma contains_middle (needle a b : string) :
  contains needle (a ++ needle ++ b) = true.
Proof. apply contains_app_r, contains_self. Qed.

Lemma contains_join (needle sep : string) (parts : list string) (part : string) :
  part ∈ parts -> contains needle part = true ->
  contains needle (join sep parts) = true.
Proof.
  intros Hin Hpart. induction parts as [| p parts IH]; [inversion Hin |].
  apply elem_of_cons in Hin as [<- | Hin].
  - destruct parts; [exact Hpart | apply contains_app; exact Hpart].
  - destruct parts as [| p' parts']; [inversion Hin |].
    change (join sep (p :: p' :: parts'))
      with (p ++ sep ++ join sep (p' :: parts')).
    do 2 apply contains_app_r. exact (IH Hin).
Qed.

(** A text whose head names an error is shown in the error box, whatever
    follows the head. The head starts and ends with a solid character. *)
Lemma shown_as_error (head : string) (c : ascii) (rest : string) :
  is_space c = false ->
  starts_solid (head ++ String c "") = true ->
  contains "error" (lower (head ++ String c "")) = true ->
  fst (show_response ((head ++ String c "") ++ rest)) = st_error.
Proof.
  intros Hc Hsolid Herror. unfold show_response.
  assert (Hstrip : strip ((head ++ String c "") ++ rest)
                   = (head ++ String c "") ++ rstrip rest).
  { unfold strip. rewrite lstrip_solid by (apply starts_solid_app; exact Hsolid).
    rewrite !append_assoc, !append_cons.
    change ("" ++ rest) with rest. change ("" ++ rstrip rest) with (rstrip rest).
    rewrite rstrip_app; rewrite rstrip_solid by exact Hc; [reflexivity | discriminate]. }
  rewrite Hstrip.
  assert (Hne : String.eqb ((head ++ String c "") ++ rstrip rest) "" = false).
  { pose proof (starts_solid_app _ (rstrip rest) Hsolid) as Hs.
    destruct ((head ++ String c "") ++ rstrip rest); [discriminate | reflexivity]. }
  rewrite Hne. cbn [fst].
  rewrite lower_app, (contains_app _ _ _ Herror). reflexivity.
Qed.

End Text.

(** ** The outcome of a turn *)

Section OutcomeFacts.
Import Agent.
Context `{PyFormat}.

Lemma collect_calls (calls : list tool_call) (info : list string) :
  fold_left (fun info tool_call => (info ++ [format_tool_call tool_call])%list)
            calls info
  = (info ++ map format_tool_call calls)%list.
Proof.
  revert info. induction calls as [| c calls IH]; intros info; cbn.
  - rewrite app_nil_r. reflexivity.
  - rewrite IH, <- app_assoc. reflexivity.
Qed.

(** The loop over the history lists every request, in order. *)
Lemma tool_calls_info_requests (msgs : list BaseMessage) :
  tool_calls_info msgs = map format_tool_call (tool_call_requests msgs).
Proof.
  unfold tool_calls_info.
  enough (Hgen : forall info,
             fold_left
               (fun info message =>
                  match message with
                  | AIMessage _ (c :: cs) =>
                      fold_left
                        (fun info tool_call =>
                           (info ++ [format_tool_call tool_call])%list)
                        (c :: cs) info
                  | _ => info
                  end) msgs info
             = (info ++ map format_tool_call (tool_call_requests msgs))%list)
    by apply (Hgen []).
  induction msgs as [| m msgs IH]; intros info.
  - cbn. rewrite app_nil_r. reflexivity.
  - cbn [fold_left tool_call_requests flat_map]. rewrite IH.
    destruct m as [c | c | c [| call calls] | c n i s];
      try reflexivity.
    rewrite collect_calls, map_app, <- !app_assoc. reflexivity.
Qed.

Lemma append_empty (s : string) : s ++ "" = s.
Proof.
  induction s as [| c s IH]; [reflexivity |].
  change (String c s ++ "") with (String c (s ++ "")). rewrite IH. reflexivity.
Qed.

(** The outcome when the conversation ends on an assistant message without
    tool calls whose stripped content is not empty. *)
Lemma agent_result_of_answer (pre : list BaseMessage) (content : pyval) :
  stripped_content content <> "" ->
  agent_result_of {| messages := Some (pre ++ [AIMessage content []])%list |}
  = stripped_content content
    ++ audit_trail (tool_call_requests (pre ++ [AIMessage content []])).
Proof.
  intros Hanswer. unfold agent_result_of. cbn [messages].
  rewrite last_snoc, tool_calls_info_requests.
  apply String.eqb_neq in Hanswer. rewrite Hanswer. cbn [negb].
  unfold audit_trail.
  destruct (tool_call_requests _) as [| call calls]; cbn [map].
  - symmetry. apply append_empty.
  - reflexivity.
Qed.

(** The text [str(content or "")] and the entry of a tool call, spelled
    out. *)
Lemma stripped_content_text (content : pyval) :
  stripped_content content
  = strip (match content with
           | PyStr s => s
           | _ => if truthy content then py_repr content else ""
           end).
Proof.
  unfold stripped_content.
  destruct content as [| b | n | m e | s | l | kvs]; cbn [truthy].
  5:{ destruct (String.eqb_spec s "") as [-> | _]; reflexivity. }
  all: match goal with
       | |- context [if ?c then _ else _] => destruct c
       | _ => idtac
       end; reflexivity.
Qed.

Lemma format_tool_call_text (call : tool_call) :
  format_tool_call call
  = "* **Tool:** `" ++ tc_name call ++ "`" ++ nl
    ++ "* **Arguments:** `" ++ py_repr (PyDict (tc_args call)) ++ "`".
Proof. reflexivity. Qed.

(** C2: when the graph ends its run, the conversation ends on an assistant
    message without tool calls. If the stripped text of that message is not
    empty, the result of the turn is that text followed, when any tool was
    called, by the "Tools Used" block: one entry for every tool call of
    every assistant message of the whole conversation, in order of
    emission, each entry made of the call's name and of its arguments as
    Python renders them. So the name and the arguments of every call are
    found in the result. *)
Theorem answer_then_audit_trail `{Engine} `{Tools}
    (fuel : nat) (user_query : string) (final_state : AgentState) :
  ainvoke fuel {| messages := Some [HumanMessage (PyStr user_query)] |}
  = Some final_state ->
  exists pre content,
    messages final_state = Some (pre ++ [AIMessage content []])%list
    /\ let answer :=
         strip (match content with
                | PyStr s => s
                | _ => if truthy content then py_repr content else ""
                end) in
       let entry (call : tool_call) :=
         "* **Tool:** `" ++ tc_name call ++ "`" ++ nl
         ++ "* **Arguments:** `" ++ py_repr (PyDict (tc_args call)) ++ "`" in
       let calls := tool_call_requests (pre ++ [AIMessage content []]) in
       answer <> "" ->
       exists result,
         run_agent_async fuel user_query = Some result
         /\ result
            = answer
              ++ match calls with
                 | [] => ""
                 | _ :: _ =>
                     nl ++ nl ++ "---" ++ nl ++ "**Tools Used:**" ++ nl
                     ++ join (nl ++ nl) (map entry calls)
                 end
         /\ forall call, call ∈ calls ->
              App.contains (tc_name call) result = true
              /\ App.contains (py_repr (PyDict (tc_args call))) result = true.
Proof.
  intros Hrun.
  assert (Hlast : exists pre content,
             messages final_state = Some (pre ++ [AIMessage content []])%list).
  { apply run_ends_on_plain_answer in Hrun; [exact Hrun | discriminate]. }
  destruct Hlast as (pre & content & Hlast).
  exists pre, content. split; [exact Hlast |].
  cbn zeta. rewrite <- stripped_content_text. intros Hanswer.
  eexists. split; [| split].
  - unfold run_agent_async. rewrite Hrun. cbn.
    destruct final_state as [ms]. cbn in Hlast. rewrite Hlast.
    rewrite agent_result_of_answer by exact Hanswer. reflexivity.
  - unfold audit_trail.
    destruct (tool_call_requests _) as [| call calls]; reflexivity.
  - intros call Hcall. unfold audit_trail.
    destruct (tool_call_requests _) as [| call0 calls] eqn:Hcalls;
      [inversion Hcall |].
    assert (Hentry : format_tool_call call ∈ map format_tool_call (call0 :: calls)).
    { apply list_elem_of_fmap. exists call. split; [reflexivity | exact Hcall]. }
    split; apply contains_app_r; do 6 apply contains_app_r;
      apply (contains_join _ _ _ _ Hentry); rewrite format_tool_call_text.
    + apply contains_middle.
    + do 5 apply contains_app_r. apply contains_self.
Qed.

Lemma lstrip_spaces (s : string) :
  forallb is_space (list_ascii_of_string s) = true -> lstrip s = "".
Proof.
  induction s as [| c s IH]; [reflexivity |].
  cbn. intros Hall. apply andb_true_iff in Hall as [Hc Hs].
  rewrite Hc. exact (IH Hs).
Qed.

(** C7: when the conversation ends on an assistant message without tool
    calls whose text is empty or white space only, the result of the turn
    is the fixed notice, which is not blank. *)
Theorem empty_answer_notice (pre : list BaseMessage) (text : string) :
  forallb is_space (list_ascii_of_string text) = true ->
  agent_result_of {| messages := Some (pre ++ [AIMessage (PyStr text) []])%list |}
  = "Agent finished, but the final message was empty."
  /\ strip "Agent finished, but the final message was empty." <> "".
Proof.
  intros Hblank. split; [| discriminate].
  unfold agent_result_of. cbn [messages]. rewrite last_snoc.
  assert (Hstrip : stripped_content (PyStr text) = "").
  { unfold stripped_content, strip. cbn [truthy py_str].
    destruct (negb (String.eqb text "")); cbn [py_str];
      [rewrite lstrip_spaces by exact Hblank |]; reflexivity. }
  rewrite Hstrip. reflexivity.
Qed.

(** C8: when the conversation ends on a tool message, the result of the
    turn is the notice that the agent finished after using that tool
    without a final summary or, when the tool message has the error status,
    the failure of that tool with its detail. The two texts differ, the
    name of the tool is found in either, and nothing of the earlier
    conversation (no answer text, no audit trail) enters the result. *)
Theorem tool_message_last
    (pre : list BaseMessage) (content : pyval) (name tool_call_id : option string)
    (status : tool_status) :
  let tool := match name with Some n => n | None => py_repr PyNone end in
  let detail := match content with PyStr s => s | _ => py_repr content end in
  let no_summary :=
    "Agent finished after using tool '" ++ tool
    ++ "', but didn't provide a final summary." in
  let failure :=
    "An error occurred during tool execution: Tool '" ++ tool
    ++ "' failed: " ++ detail in
  let result :=
    agent_result_of
      {| messages := Some (pre ++ [ToolMessage content name tool_call_id status])%list |} in
  result = match status with success => no_summary | error => failure end
  /\ no_summary <> failure
  /\ App.contains tool result = true.
Proof.
  cbn zeta.
  assert (Hresult :
            agent_result_of
              {| messages :=
                   Some (pre ++ [ToolMessage content name tool_call_id status])%list |}
            = match status with
              | success =>
                  "Agent finished after using tool '"
                  ++ match name with Some n => n | None => py_repr PyNone end
                  ++ "', but didn't provide a final summary."
              | error =>
                  "An error occurred during tool execution: Tool '"
                  ++ match name with Some n => n | None => py_repr PyNone end
                  ++ "' failed: "
                  ++ match content with PyStr s => s | _ => py_repr content end
              end).
  { unfold agent_result_of. cbn [messages]. rewrite last_snoc.
    destruct status, name, content; reflexivity. }
  split; [exact Hresult | split; [discriminate |]].
  rewrite Hresult. destruct status; apply contains_middle.
Qed.

(** A tool message of the lookup tool, with a success and with an error. *)
Example tool_message_last_sample :
  @agent_result_of flat_format
    {| messages :=
         Some [ HumanMessage (PyStr "Argentina?");
                AIMessage (PyStr "") [lookup_call];
                ToolMessage (PyStr "[]") (Some "fetch_auxiliary_table")
                  (Some "call_1") success ] |}
  = "Agent finished after using tool 'fetch_auxiliary_table', but didn't provide a final summary."
  /\ @agent_result_of flat_format
       {| messages :=
            Some [ HumanMessage (PyStr "Argentina?");
                   AIMessage (PyStr "") [lookup_call];
                   ToolMessage (PyStr "timed out") (Some "fetch_auxiliary_table")
                     (Some "call_1") error ] |}
     = "An error occurred during tool execution: Tool 'fetch_auxiliary_table' failed: timed out".
Proof. split; reflexivity. Qed.

End OutcomeFacts.

(** The engine of two steps ends its run after five steps of the graph. *)
Example two_step_run :
  @Agent.ainvoke two_step_engine echo_tools 5
    {| Agent.messages := Some [Agent.HumanMessage (PyStr "Argentina?")] |}
  = Some {| Agent.messages :=
              Some ([ Agent.HumanMessage (PyStr "Argentina?");
                      Agent.AIMessage (PyStr "") [lookup_call];
                      Agent.ToolMessage (PyStr "fetch_auxiliary_table")
                        (Some "fetch_auxiliary_table") (Some "call_1") Agent.success;
                      Agent.AIMessage (PyStr "") [statistics_call];
                      Agent.ToolMessage (PyStr "dados_gerais")
                        (Some "dados_gerais") (Some "call_2") Agent.success ]
                    ++ [Agent.AIMessage (PyStr " Exports to Argentina: US$ 10 ") []])%list |}.
Proof. reflexivity. Qed.

Lemma answer_then_audit_trail_witness :
  @Agent.run_agent_async flat_format two_step_engine echo_tools 5 "Argentina?"
  = Some ("Exports to Argentina: US$ 10" ++ Agent.nl ++ Agent.nl
          ++ "---" ++ Agent.nl ++ "**Tools Used:**" ++ Agent.nl
          ++ "* **Tool:** `fetch_auxiliary_table`" ++ Agent.nl
          ++ "* **Arguments:** `{'table_name': 'countries', 'search': 'Argentina'}`"
          ++ Agent.nl ++ Agent.nl
          ++ "* **Tool:** `dados_gerais`" ++ Agent.nl
          ++ "* **Arguments:** `{'flow': 'export'}`").
Proof.
  destruct (@answer_then_audit_trail flat_format two_step_engine echo_tools
              5 "Argentina?" _ two_step_run)
    as (pre & content & Hlast & Hresult).
  cbn [Agent.messages] in Hlast.
  assert (Hsplit :
            ([ Agent.HumanMessage (PyStr "Argentina?");
               Agent.AIMessage (PyStr "") [lookup_call];
               Agent.ToolMessage (PyStr "fetch_auxiliary_table")
                 (Some "fetch_auxiliary_table") (Some "call_1") Agent.success;
               Agent.AIMessage (PyStr "") [statistics_call];
               Agent.ToolMessage (PyStr "dados_gerais")
                 (Some "dados_gerais") (Some "call_2") Agent.success ]
             ++ [Agent.AIMessage (PyStr " Exports to Argentina: US$ 10 ") []])%list
            = (pre ++ [Agent.AIMessage content []])%list).
  { injection Hlast as Hlast. exact Hlast. }
  apply app_inj_tail in Hsplit as [<- Hcontent].
  injection Hcontent as <-.
  destruct Hresult as (result & Hrun & Htext & _); [discriminate |].
  rewrite Hrun, Htext. reflexivity.
Defined.

Lemma empty_answer_notice_witness :
  @Agent.agent_result_of sample_format
    {| Agent.messages :=
         Some ([Agent.HumanMessage (PyStr "hi")]
               ++ [Agent.AIMessage (PyStr "  ") []])%list |}
  = "Agent finished, but the final message was empty."
  /\ strip "Agent finished, but the final message was empty." <> "".
Proof.
  exact (@empty_answer_notice sample_format [Agent.HumanMessage (PyStr "hi")] "  "
           eq_refl).
Defined.

(** ** More on the client *)

Section ClientMore.
Context `{PyFormat} `{Network}.
Import Comexstat.

(** The helper behind the statistics queries raises nothing: it returns
    the parsed body of a 2xx answer and None in every other case. *)
Theorem fetch_returns_body_or_None url payload headers :
  outcome (_fetch_comexstat_data url payload headers)
  = Return (match parsed (send (post_request url payload headers)) with
            | Some body => body
            | None => PyNone
            end).
Proof.
  rewrite fetch_outcome. unfold parsed.
  destruct (send _) as [e | r]; [reflexivity |].
  destruct (is_success r); [| reflexivity].
  destruct (json_body r); reflexivity.
Qed.

(** Each operation sends exactly one request, whatever the network does:
    a POST to /general or /cities, or a GET to /tables/..., with a timeout
    of 60 seconds, 30 for the single-item lookup. Nothing is sent twice. *)
Theorem one_request_per_call (c : client_call) :
  exists req,
    sent (trace (perform c)) = [req]
    /\ req_method req
       = match c with
         | Dados_gerais _ _ _ _ _ _ | Dados_municipio _ _ _ _ _ _ => POST
         | _ => GET
         end
    /\ req_url req
       = match c with
         | Dados_gerais _ _ _ _ _ _ => COMEXSTAT_API_BASE ++ "/general"
         | Dados_municipio _ _ _ _ _ _ => COMEXSTAT_API_BASE ++ "/cities"
         | Fetch_auxiliary_table t _ _ _ _ _ => COMEXSTAT_API_BASE ++ "/tables/" ++ t
         | Fetch_single_item_detail t i =>
             COMEXSTAT_API_BASE ++ "/tables/" ++ t ++ "/" ++ py_str i
         end
    /\ req_timeout req
       = match c with Fetch_single_item_detail _ _ => 30 | _ => 60 end
    /\ (req_json req = None <-> req_method req = GET).
Proof.
  destruct c as [f m p fs ds ms | f m p fs ds ms | t a l p pp s | t i];
    cbn [perform]; eexists.
  - unfold dados_gerais. rewrite trace_bind, sent_app, fetch_sent, fetch_outcome.
    split.
    { match goal with |- context [truthy ?d] => destruct (truthy d) end;
        [rewrite sent_extract |]; reflexivity. }
    repeat split; discriminate.
  - unfold dados_municipio. rewrite trace_bind, sent_app, fetch_sent, fetch_outcome.
    split.
    { match goal with |- context [truthy ?d] => destruct (truthy d) end;
        [rewrite sent_extract |]; reflexivity. }
    repeat split; discriminate.
  - unfold fetch_auxiliary_table. split; [run_client; reflexivity |].
    repeat split; reflexivity.
  - unfold fetch_single_item_detail. split; [run_client; reflexivity |].
    repeat split; reflexivity.
Qed.

(** When the server answers 2xx with a body that has the nested list, the
    two statistics queries and the table lookup return that list. *)
Theorem nested_list_is_returned (c : client_call) (o : http_outcome)
    (body lst : pyval) :
  (forall t i, c <> Fetch_single_item_detail t i) ->
  answered_with (perform c) o ->
  parsed o = Some body ->
  nested_list body = Some lst ->
  outcome (perform c) = Return lst.
Proof.
  intros Hc Hsend Hbody Hlist.
  assert (Hget : truthy body = true
                 /\ outcome (inner ← py_get body "data" (PyDict []) ;
                            py_get inner "list" PyNone) = Return lst).
  { unfold nested_list in Hlist. destruct body as [| | | | | | kvs]; try discriminate.
    destruct (dict_lookup "data" kvs) as [[| | | | | | inner] |] eqn:Hdata;
      try discriminate.
    split.
    - destruct kvs; [discriminate | reflexivity].
    - cbn. rewrite Hdata. cbn. rewrite Hlist. reflexivity. }
  destruct Hget as [Htruthy Hget].
  destruct c as [f m p fs ds ms | f m p fs ds ms | t a l p pp s | t i];
    cbn [perform] in *.
  - destruct (dados_gerais_run f m p fs ds ms) as (req & Hsent & _ & _ & _ & _ & ->).
    rewrite (Hsend req), Hbody, Htruthy by (rewrite Hsent; apply list_elem_of_here).
    exact Hget.
  - destruct (dados_municipio_run f m p fs ds ms) as (req & Hsent & _ & _ & _ & _ & ->).
    rewrite (Hsend req), Hbody, Htruthy by (rewrite Hsent; apply list_elem_of_here).
    exact Hget.
  - destruct (fetch_auxiliary_table_run t a l p pp s) as (req & Hsent & _ & _ & _ & ->).
    rewrite (Hsend req), Hbody by (rewrite Hsent; apply list_elem_of_here).
    cbn. rewrite Hlist. reflexivity.
  - exfalso. exact (Hc t i eq_refl).
Qed.

(** A statistics query raises nothing but an AttributeError, and only
    after a 2xx answer whose body is truthy and has no nested list. *)
Theorem statistics_raise_only_on_odd_shape (c : client_call) (e : exn) :
  (exists f m p fs ds ms, c = Dados_gerais f m p fs ds ms
                          \/ c = Dados_municipio f m p fs ds ms) ->
  outcome (perform c) = Raise e ->
  exists req body msg,
    sent (trace (perform c)) = [req]
    /\ parsed (send req) = Some body
    /\ truthy body = true
    /\ nested_list body = None
    /\ e = AttributeError msg.
Proof.
  intros (f & m & p & fs & ds & ms & Hc) Hraise.
  assert (Hrun : exists req,
             sent (trace (perform c)) = [req]
             /\ outcome (perform c)
                = match parsed (send req) with
                  | Some body =>
                      if truthy body
                      then outcome (inner ← py_get body "data" (PyDict []) ;
                                    py_get inner "list" PyNone)
                      else Return PyNone
                  | None => Return PyNone
                  end).
  { destruct Hc as [-> | ->]; cbn [perform].
    - destruct (dados_gerais_run f m p fs ds ms) as (req & ? & _ & _ & _ & _ & ?).
      exists req. split; assumption.
    - destruct (dados_municipio_run f m p fs ds ms) as (req & ? & _ & _ & _ & _ & ?).
      exists req. split; assumption. }
  destruct Hrun as (req & Hsent & Hout). rewrite Hout in Hraise.
  destruct (parsed (send req)) as [body |] eqn:Hparsed; [| discriminate].
  destruct (truthy body) eqn:Htruthy; [| discriminate].
  exists req, body.
  enough (Hshape : nested_list body = None /\ exists msg, e = AttributeError msg).
  { destruct Hshape as (Hnone & msg & ->). exists msg. auto. }
  clear Hparsed Htruthy Hout Hsent.
  destruct body as [| | | | | | kvs]; cbn in Hraise;
    try (injection Hraise as <-; split; [reflexivity | eexists; reflexivity]).
  unfold nested_list.
  destruct (dict_lookup "data" kvs) as [[| | | | | | inner] |]; cbn in Hraise;
    try discriminate;
    try (injection Hraise as <-; split; [reflexivity | eexists; reflexivity]).
Qed.

End ClientMore.

Section PayloadsAndItems.
Context `{PyFormat} `{Network}.
Import Comexstat.

Lemma filter_keeps_all (ds : list string) :
  "year" ∉ ds -> filter (fun d => d <> "year") ds = ds.
Proof.
  induction ds as [| d ds IH]; intros Hnot; [reflexivity |].
  apply not_elem_of_cons in Hnot as [Hd Hds].
  rewrite filter_cons_True by congruence. rewrite IH by exact Hds. reflexivity.
Qed.

(** Details without "year" reach the payload of both statistics queries
    unchanged: same entries, same order. *)
Theorem clean_details_unchanged flow monthDetail period filters metrics
    (details : list string) :
  "year" ∉ details ->
  (exists req,
      sent (trace (dados_gerais flow monthDetail period filters (Some details) metrics))
      = [req]
      /\ payload_entry "details" req = Some (PyList (map PyStr details)))
  /\ (exists req,
      sent (trace (dados_municipio flow monthDetail period filters (Some details) metrics))
      = [req]
      /\ payload_entry "details" req = Some (PyList (map PyStr details))).
Proof.
  intros Hclean. split.
  - destruct (dados_gerais_run flow monthDetail period filters (Some details) metrics)
      as (req & Hsent & _ & _ & Hdetails & _).
    exists req. split; [exact Hsent |].
    rewrite Hdetails, filter_keeps_all by exact Hclean. reflexivity.
  - destruct (dados_municipio_run flow monthDetail period filters (Some details) metrics)
      as (req & Hsent & _ & _ & Hdetails & _).
    exists req. split; [exact Hsent |].
    rewrite Hdetails, filter_keeps_all by exact Hclean. reflexivity.
Qed.

(** For the same arguments the two statistics queries post the same JSON
    payload with the same headers. The payload is a dict with the six keys
    flow, monthDetail, period, filters, details, metrics, in this order;
    metrics left out are sent as an empty list, filters left out as null. *)
Theorem statistics_queries_share_payload
    flow monthDetail period filters details metrics :
  exists general cities kvs,
    sent (trace (dados_gerais flow monthDetail period filters details metrics))
    = [general]
    /\ sent (trace (dados_municipio flow monthDetail period filters details metrics))
       = [cities]
    /\ req_json general = Some (PyDict kvs)
    /\ req_json cities = Some (PyDict kvs)
    /\ req_headers general = req_headers cities
    /\ map fst kvs = ["flow"; "monthDetail"; "period"; "filters"; "details"; "metrics"]
    /\ dict_lookup "flow" kvs = Some (PyStr flow)
    /\ dict_lookup "monthDetail" kvs = Some (PyBool monthDetail)
    /\ dict_lookup "metrics" kvs
       = Some (PyList (map PyStr (match metrics with Some ms => ms | None => [] end)))
    /\ dict_lookup "filters" kvs
       = Some (match filters with Some fs => PyList (map PyDict fs) | None => PyNone end).
Proof.
  do 3 eexists.
  split.
  { unfold dados_gerais. rewrite trace_bind, sent_app, fetch_sent, fetch_outcome.
    match goal with |- context [truthy ?d] => destruct (truthy d) end;
      [rewrite sent_extract |]; reflexivity. }
  split.
  { unfold dados_municipio. rewrite trace_bind, sent_app, fetch_sent, fetch_outcome.
    match goal with |- context [truthy ?d] => destruct (truthy d) end;
      [rewrite sent_extract |]; reflexivity. }
  repeat split; reflexivity.
Qed.

(** The single-item lookup raises nothing and returns None or a dict that
    is not empty: when the answer is a dict whose "data" is a dict, that
    inner dict; when it is a dict without such a "data", the answer itself;
    None for an empty dict of either kind and for any other JSON value. *)
Theorem single_item_is_dict_or_None (table_name : string) (item_id : pyval) :
  exists req,
    sent (trace (fetch_single_item_detail table_name item_id)) = [req]
    /\ outcome (fetch_single_item_detail table_name item_id)
       = Return (match parsed (send req) with
                 | Some (PyDict kvs) =>
                     match dict_lookup "data" kvs with
                     | Some (PyDict (kv :: d)) => PyDict (kv :: d)
                     | Some (PyDict []) => PyNone
                     | _ => match kvs with [] => PyNone | _ :: _ => PyDict kvs end
                     end
                 | _ => PyNone
                 end)
    /\ exists v,
         outcome (fetch_single_item_detail table_name item_id) = Return v
         /\ (v = PyNone \/ exists kv kvs, v = PyDict (kv :: kvs)).
Proof.
  destruct (fetch_single_item_detail_run table_name item_id)
    as (req & Hsent & _ & _ & Hout & _).
  exists req. split; [exact Hsent |].
  assert (Hresult :
            outcome (fetch_single_item_detail table_name item_id)
            = Return (match parsed (send req) with
                      | Some (PyDict kvs) =>
                          match dict_lookup "data" kvs with
                          | Some (PyDict (kv :: d)) => PyDict (kv :: d)
                          | Some (PyDict []) => PyNone
                          | _ => match kvs with [] => PyNone | _ :: _ => PyDict kvs end
                          end
                      | _ => PyNone
                      end)).
  { rewrite Hout. destruct (parsed (send req)) as [[| | | | | | kvs] |]; try reflexivity.
    unfold item_of.
    destruct (dict_lookup "data" kvs) as [[| | | | | | [| kv d]] |];
      try reflexivity; destruct kvs; reflexivity. }
  split; [exact Hresult |].
  rewrite Hresult. eexists. split; [reflexivity |].
  destruct (parsed (send req)) as [[| | | | | | kvs] |]; auto.
  destruct (dict_lookup "data" kvs) as [[| | | | | | [| kv d]] |].
  all: first [ left; reflexivity
             | right; do 2 eexists; reflexivity
             | destruct kvs;
               [left; reflexivity | right; do 2 eexists; reflexivity] ].
Qed.

(** The query string of a table lookup has its parameters in the fixed
    order add, language, search, page, perPage, each at most once. *)
Theorem query_params_in_order table_name add language page perPage search :
  exists req,
    sent (trace (fetch_auxiliary_table table_name add language page perPage search))
    = [req]
    /\ map fst (req_params req)
       `sublist_of` ["add"; "language"; "search"; "page"; "perPage"].
Proof.
  destruct (fetch_auxiliary_table_run table_name add language page perPage search)
    as (req & Hsent & _ & _ & Hparams & _).
  exists req. split; [exact Hsent |].
  rewrite Hparams, query_params_of_supplied.
  destruct (bool_decide (table_name ∈ params_all ∪ params_limited)),
    (bool_decide (table_name ∈ params_all)),
    add, language, search, page, perPage; cbn;
    repeat first [apply sublist_nil_l | apply sublist_skip | apply sublist_cons].
Qed.

End PayloadsAndItems.

Lemma nested_list_is_returned_witness :
  outcome (@perform sample_format
             (server_answering 200
                (inr (PyDict [("data", PyDict [("list", PyList [PyInt 1])])])))
             (Fetch_auxiliary_table "countries" None None None None None))
  = Return (PyList [PyInt 1]).
Proof.
  apply (@nested_list_is_returned sample_format
           (server_answering 200
              (inr (PyDict [("data", PyDict [("list", PyList [PyInt 1])])])))
           (Fetch_auxiliary_table "countries" None None None None None)
           (Responds {| status_code := 200; text := "";
                        json_body :=
                          inr (PyDict [("data", PyDict [("list", PyList [PyInt 1])])]) |})
           (PyDict [("data", PyDict [("list", PyList [PyInt 1])])])
           (PyList [PyInt 1])).
  - intros t i. discriminate.
  - intros req Hreq. reflexivity.
  - reflexivity.
  - reflexivity.
Defined.

Lemma statistics_raise_only_on_odd_shape_witness :
  exists req body msg,
    sent (trace (@perform sample_format
                   (server_answering 200 (inr (PyDict [("data", PyNone)])))
                   (Dados_gerais "import" false default_period None None None)))
    = [req]
    /\ @parsed (@send (server_answering 200 (inr (PyDict [("data", PyNone)]))) req)
       = Some body
    /\ truthy body = true
    /\ nested_list body = None
    /\ AttributeError "'NoneType' object has no attribute 'get'" = AttributeError msg.
Proof.
  apply (@statistics_raise_only_on_odd_shape sample_format
           (server_answering 200 (inr (PyDict [("data", PyNone)])))
           (Dados_gerais "import" false default_period None None None)).
  - exists "import", false, default_period, None, None, None. left. reflexivity.
  - reflexivity.
Defined.

Lemma clean_details_unchanged_witness :
  exists req,
    sent (trace (@Comexstat.dados_gerais sample_format network_down
                   "export" true default_period None (Some ["country"; "state"]) None))
    = [req]
    /\ payload_entry "details" req
       = Some (PyList [PyStr "country"; PyStr "state"]).
Proof.
  apply (@clean_details_unchanged sample_format network_down
           "export" true default_period None None ["country"; "state"]).
  intros Hin. repeat (apply elem_of_cons in Hin as [Hin | Hin]; [discriminate |]).
  inversion Hin.
Defined.

(** ** The conversation of a run *)

Section History.
Import Agent.
Context `{Engine} `{Tools}.

Lemma run_appends (fuel : nat) (s : run_state) (msgs : list BaseMessage)
    (st : AgentState) :
  messages (state s) = Some msgs ->
  run fuel s = Some st ->
  exists new,
    messages st = Some (msgs ++ new)%list /\ forallb is_reply new = true.
Proof.
  revert s msgs. induction fuel as [| fuel IH]; intros s msgs Hmsgs Hrun.
  - destruct s as [[] st0]; cbn in *; try discriminate.
    injection Hrun as <-. exists []. rewrite app_nil_r. auto.
  - destruct s as [[] st0]; cbn [run at_node state] in *.
    + apply (IH _ (msgs ++ call_model st0)%list) in Hrun.
      * destruct Hrun as (new & Hst & Hnew).
        exists (call_model st0 ++ new)%list. rewrite app_assoc. split; [exact Hst |].
        rewrite forallb_app, Hnew. reflexivity.
      * cbn. rewrite Hmsgs. reflexivity.
    + apply (IH _ (msgs ++ tool_node st0)%list) in Hrun.
      * destruct Hrun as (new & Hst & Hnew).
        exists (tool_node st0 ++ new)%list. rewrite app_assoc. split; [exact Hst |].
        rewrite forallb_app, Hnew, andb_true_r.
        unfold tool_node. rewrite Hmsgs.
        destruct (last msgs) as [[c | c | c calls | c n i u] |]; try reflexivity.
        induction calls as [| call calls IHc]; [reflexivity | exact IHc].
      * cbn. rewrite Hmsgs. reflexivity.
    + injection Hrun as <-. exists []. rewrite app_nil_r. auto.
Qed.

(** A run only appends to the conversation it was given: the final state
    holds the initial messages, unchanged and first, followed by messages
    of the model and of tools only. No system or user message is added. *)
Theorem run_keeps_history (fuel : nat) (msgs : list BaseMessage) (st : AgentState) :
  ainvoke fuel {| messages := Some msgs |} = Some st ->
  exists new,
    messages st = Some (msgs ++ new)%list /\ forallb is_reply new = true.
Proof.
  intros Hrun.
  apply (run_appends fuel {| at_node := agent; state := {| messages := Some msgs |} |});
    [reflexivity | exact Hrun].
Qed.

End History.

Lemma run_keeps_history_witness :
  exists new,
    Some [ Agent.HumanMessage (PyStr "Argentina?");
           Agent.AIMessage (PyStr "") [lookup_call];
           Agent.ToolMessage (PyStr "fetch_auxiliary_table")
             (Some "fetch_auxiliary_table") (Some "call_1") Agent.success;
           Agent.AIMessage (PyStr "Argentina: 063") [] ]
    = Some ([Agent.HumanMessage (PyStr "Argentina?")] ++ new)%list
    /\ forallb is_reply new = true.
Proof.
  exact (@run_keeps_history one_lookup_engine echo_tools 3
           [Agent.HumanMessage (PyStr "Argentina?")] _ one_lookup_run).
Defined.

(** ** The whole turn and what the chat shows *)

Section Turns.
Import Agent Session App.
Context `{PyFormat} `{Engine} `{Tools} `{Python} `{Mcp}.

Lemma agent_result_starts_solid (st : AgentState) :
  starts_solid (agent_result_of st) = true.
Proof.
  unfold agent_result_of. destruct (messages st) as [msgs |]; [| reflexivity].
  destruct (last msgs) as [[c | c | c [| call calls] | c n i [|]] |];
    try reflexivity.
  destruct (negb (String.eqb (stripped_content c) "")) eqn:Hanswer; [| reflexivity].
  apply negb_true_iff in Hanswer. unfold stripped_content in *.
  destruct (tool_calls_info msgs);
    [| apply starts_solid_app]; apply strip_starts_solid; exact Hanswer.
Qed.

Lemma shown_setup_error (msg : string) :
  fst (show_response ("Error during setup: " ++ msg)) = st_error.
Proof. apply (shown_as_error "Erro" "r" (" during setup: " ++ msg)); reflexivity. Qed.

Lemma shown_unexpected_setup_error (msg : string) :
  fst (show_response ("Unexpected error during setup: " ++ msg)) = st_error.
Proof.
  apply (shown_as_error "Unexpected erro" "r" (" during setup: " ++ msg)); reflexivity.
Qed.

Lemma shown_ainvoke_error (msg : string) :
  fst (show_response ("An error occurred during agent execution (ainvoke): " ++ msg))
  = st_error.
Proof.
  apply (shown_as_error "An erro" "r"
           (" occurred during agent execution (ainvoke): " ++ msg)); reflexivity.
Qed.

Lemma shown_connection_error (e : exception) :
  fst (show_response
         (match e with
          | ConnectionRefusedError _ =>
              "Error: Connection refused. Is the MCP server ("
              ++ SERVER_SCRIPT_PATH ++ ") running or startable?"
          | _ =>
              if is_asyncio_timeout e
              then "Error: Timeout occurred during MCP connection/setup."
              else "An unexpected error occurred during MCP connection/setup phase: "
                   ++ str e
          end)) = st_error.
Proof.
  assert (Hother : forall e',
             fst (show_response
                    (if is_asyncio_timeout e'
                     then "Error: Timeout occurred during MCP connection/setup."
                     else "An unexpected error occurred during MCP connection/setup phase: "
                          ++ str e')) = st_error).
  { intros e'. destruct (is_asyncio_timeout e'); [reflexivity |].
    apply (shown_as_error "An unexpected erro" "r"
             (" occurred during MCP connection/setup phase: " ++ str e'));
      reflexivity. }
  destruct e; try apply Hother.
  apply (shown_as_error "Erro" "r"
           (": Connection refused. Is the MCP server ("
            ++ SERVER_SCRIPT_PATH ++ ") running or startable?")); reflexivity.
Qed.

(** The outer handlers of [run_agent_async], as one text. *)
Lemma run_agent_async_session_raised (e : exception) (fuel : nat) (q : string) :
  with_session (session_body fuel q) = inl e ->
  run_agent_async_session fuel q
  = inr (Some (match e with
               | ConnectionRefusedError _ =>
                   "Error: Connection refused. Is the MCP server ("
                   ++ SERVER_SCRIPT_PATH ++ ") running or startable?"
               | _ =>
                   if is_asyncio_timeout e
                   then "Error: Timeout occurred during MCP connection/setup."
                   else "An unexpected error occurred during MCP connection/setup phase: "
                        ++ str e
               end)).
Proof.
  intros Hraised. unfold run_agent_async_session. rewrite Hraised.
  destruct e; try reflexivity; destruct (is_asyncio_timeout _); reflexivity.
Qed.

(** Whatever fails around a turn (the connection, the setup, the run of
    the graph, the closing of the session), [run_agent_async] returns a
    text instead of raising, and the chat shows that text in its error
    box. *)
Theorem failures_are_shown_as_errors (fuel : nat) (user_query : string) :
  turn_failed ->
  exists text,
    run_agent_async_session fuel user_query = inr (Some text)
    /\ fst (show_response text) = st_error.
Proof.
  intros Hfailed.
  destruct (with_session (session_body fuel user_query)) as [e | r] eqn:Hwith.
  { eexists. split; [apply run_agent_async_session_raised; exact Hwith |].
    apply shown_connection_error. }
  unfold run_agent_async_session. rewrite Hwith.
  unfold with_session in Hwith.
  destruct Hfailed as [[e He] | [[e He] | Hinner]];
    try (rewrite He in Hwith; destruct connect; discriminate).
  destruct connect; [discriminate |]. destruct close; [discriminate |].
  unfold session_body, setup in Hwith.
  destruct build_graph as [setup_e | app].
  - destruct (is_timeout setup_e || _); injection Hwith as <-; eexists;
      (split; [reflexivity |]);
      [apply shown_setup_error | apply shown_unexpected_setup_error].
  - destruct Hinner as [[e He] | [e He]]; [discriminate |].
    rewrite He in Hwith. injection Hwith as <-. eexists.
    split; [reflexivity | apply shown_ainvoke_error].
Qed.

(** A turn never ends in a blank text: what [run_agent_async] returns
    starts with a character that is not white space, so the chat shows it
    stripped and never puts its "empty response" text in its place. *)
Theorem turn_result_is_never_blank (fuel : nat) (user_query text : string) :
  run_agent_async_session fuel user_query = inr (Some text) ->
  snd (show_response text) = strip text
  /\ String.eqb (strip text) "" = false
  /\ starts_solid text = true.
Proof.
  intros Hturn.
  assert (Hsolid : starts_solid text = true).
  { unfold run_agent_async_session, with_session in Hturn.
    assert (Hraised : forall e,
               starts_solid
                 (match e with
                  | ConnectionRefusedError _ =>
                      "Error: Connection refused. Is the MCP server ("
                      ++ SERVER_SCRIPT_PATH ++ ") running or startable?"
                  | _ =>
                      if is_asyncio_timeout e
                      then "Error: Timeout occurred during MCP connection/setup."
                      else "An unexpected error occurred during MCP connection/setup phase: "
                           ++ str e
                  end) = true).
    { intros e. destruct e; try reflexivity; destruct (is_asyncio_timeout _);
        reflexivity. }
    destruct connect as [e |].
    { specialize (Hraised e). destruct e; try destruct (is_asyncio_timeout _);
        injection Hturn as <-; exact Hraised. }
    destruct close as [e |].
    { specialize (Hraised e). destruct e; try destruct (is_asyncio_timeout _);
        injection Hturn as <-; exact Hraised. }
    unfold session_body, setup in Hturn.
    destruct build_graph as [setup_e | app].
    - destruct (is_timeout setup_e || _); injection Hturn as <-; reflexivity.
    - destruct ainvoke_failure; [injection Hturn as <-; reflexivity |].
      cbn in Hturn. unfold run_agent_async in Hturn.
      destruct (ainvoke fuel _) as [final_state |]; [| discriminate].
      cbn in Hturn. injection Hturn as <-. apply agent_result_starts_solid. }
  destruct (strip_solid text Hsolid) as [_ Hne].
  split; [| split; [exact Hne | exact Hsolid]].
  unfold show_response. cbn [snd]. rewrite Hne. reflexivity.
Qed.

(** When the session is entered and then cannot be initialized, or the
    tools cannot be loaded, or the server offers none, the graph is not
    run: whatever the engine, the query and the fuel, the function is about
    to return "Error during setup: ...". That text is returned when the
    session is left without an exception; when leaving it raises, the
    outer handler's text for that exception is returned in its place. For
    a server without tools the setup text names the tool loading. *)
Theorem setup_failures_skip_the_graph :
  connect = None ->
  is_Some initialize \/ (exists e, load_mcp_tools = inl e) \/ load_mcp_tools = inr [] ->
  exists detail,
    (forall fuel user_query,
        run_agent_async_session fuel user_query
        = inr (Some
                 match close with
                 | None => "Error during setup: " ++ detail
                 | Some (ConnectionRefusedError _) =>
                     "Error: Connection refused. Is the MCP server ("
                     ++ SERVER_SCRIPT_PATH ++ ") running or startable?"
                 | Some e =>
                     if is_asyncio_timeout e
                     then "Error: Timeout occurred during MCP connection/setup."
                     else "An unexpected error occurred during MCP connection/setup phase: "
                          ++ str e
                 end))
    /\ (initialize = None -> load_mcp_tools = inr [] ->
        detail = "Error during tool loading: No tools loaded from the MCP server.").
Proof.
  intros Hconnect Hfailure.
  assert (Hsetup : exists detail,
             setup = inl ("Error during setup: " ++ detail)
             /\ (initialize = None -> load_mcp_tools = inr [] ->
                 detail
                 = "Error during tool loading: No tools loaded from the MCP server.")).
  { unfold setup, build_graph, initialize_session, load_tools.
    destruct initialize as [init_e |].
    - destruct (is_asyncio_timeout init_e); eexists; (split; [reflexivity | discriminate]).
    - destruct Hfailure as [[e He] | [[e He] | Hempty]]; [discriminate | |].
      + rewrite He. destruct (is_asyncio_timeout e); eexists;
          (split; [reflexivity | discriminate]).
      + rewrite Hempty. cbn. eexists. split; reflexivity. }
  destruct Hsetup as (detail & Hsetup & Hempty).
  exists detail. split; [| exact Hempty].
  intros fuel user_query.
  destruct close as [e |] eqn:Hclose.
  - rewrite (run_agent_async_session_raised e).
    + destruct e; reflexivity.
    + unfold with_session. rewrite Hconnect, Hclose. reflexivity.
  - unfold run_agent_async_session, with_session, session_body.
    rewrite Hconnect, Hclose, Hsetup. reflexivity.
Qed.

(** A conversation that ends on a tool message with the error status gives
    a text the chat shows in its error box, whatever the tool and its
    content. *)
Theorem tool_failure_is_shown_as_error
    (pre : list BaseMessage) (content : pyval) (name tool_call_id : option string) :
  fst (show_response
         (agent_result_of
            {| messages :=
                 Some (pre ++ [ToolMessage content name tool_call_id error])%list |}))
  = st_error.
Proof.
  unfold agent_result_of. cbn [messages]. rewrite last_snoc.
  apply (shown_as_error "An erro" "r"
           (" occurred during tool execution: Tool '" ++ name_str name
            ++ "' failed: " ++ py_str content)); reflexivity.
Qed.

(** A conversation that ends on an assistant message that still asks for
    tools, or has no tool calls and a blank text, gives a fixed notice;
    the chat shows the notice as ordinary text, not in its error box. *)
Theorem stalled_turn_is_not_shown_as_error
    (pre : list BaseMessage) (content : pyval) (calls : list tool_call) :
  (calls = [] -> stripped_content content = "") ->
  show_response
    (agent_result_of {| messages := Some (pre ++ [AIMessage content calls])%list |})
  = (st_markdown,
     match calls with
     | [] => "Agent finished, but the final message was empty."
     | _ :: _ => "Agent finished unexpectedly while planning to use tools."
     end).
Proof.
  intros Hblank. unfold agent_result_of. cbn [messages]. rewrite last_snoc.
  destruct calls as [| call calls]; [| reflexivity].
  rewrite (Hblank eq_refl). reflexivity.
Qed.

(** A final state without messages, with none, or ending on a user or
    system message gives a fixed notice, which the chat shows as ordinary
    text. *)
Theorem unexpected_final_states (pre : list BaseMessage) (content : pyval) :
  let unexpected := "Agent finished, but the final state is unexpected." in
  show_response (agent_result_of {| messages := None |})
  = (st_markdown,
     "Agent execution did not produce the expected final state structure.")
  /\ show_response (agent_result_of {| messages := Some [] |})
     = (st_markdown, unexpected)
  /\ show_response
       (agent_result_of {| messages := Some (pre ++ [HumanMessage content])%list |})
     = (st_markdown, unexpected)
  /\ show_response
       (agent_result_of {| messages := Some (pre ++ [SystemMessage content])%list |})
     = (st_markdown, unexpected).
Proof.
  cbn zeta. repeat split; try reflexivity;
    unfold agent_result_of; cbn [messages]; rewrite last_snoc; reflexivity.
Qed.

End Turns.

Lemma failures_are_shown_as_errors_witness :
  exists text,
    @Session.run_agent_async_session python_3_11 unreachable_server sample_format
      restless_engine echo_tools 0 "Argentina?"
    = inr (Some text)
    /\ fst (App.show_response text) = App.st_error.
Proof.
  apply (@failures_are_shown_as_errors sample_format restless_engine echo_tools
           python_3_11 unreachable_server 0 "Argentina?").
  left. eexists. reflexivity.
Defined.

Lemma turn_result_is_never_blank_witness :
  let text := "Argentina: 063" ++ @audit_trail sample_format [lookup_call] in
  snd (App.show_response text) = strip text
  /\ String.eqb (strip text) "" = false
  /\ starts_solid text = true.
Proof.
  apply (@turn_result_is_never_blank sample_format one_lookup_engine echo_tools
           python_3_11 working_session 3 "Argentina?").
  reflexivity.
Defined.

Lemma setup_failures_skip_the_graph_witness :
  exists detail,
    (forall fuel user_query,
        @Session.run_agent_async_session python_3_11 session_without_tools
          sample_format restless_engine echo_tools fuel user_query
        = inr (Some ("Error during setup: " ++ detail)))
    /\ (@Session.initialize session_without_tools = None ->
        @Session.load_mcp_tools session_without_tools = inr [] ->
        detail = "Error during tool loading: No tools loaded from the MCP server.").
Proof.
  apply (@setup_failures_skip_the_graph sample_format restless_engine echo_tools
           python_3_11 session_without_tools).
  - reflexivity.
  - right. right. reflexivity.
Defined.

(** The same server when leaving the session raises: the setup text is
    lost to the text of the outer handler. *)
Example setup_error_lost_on_close :
  @Session.run_agent_async_session python_3_11
    session_without_tools_failing_to_close sample_format restless_engine
    echo_tools 0 "Argentina?"
  = inr (Some "An unexpected error occurred during MCP connection/setup phase: unhandled errors in a TaskGroup").
Proof. reflexivity. Qed.

Lemma stalled_turn_is_not_shown_as_error_witness :
  App.show_response
    (@Agent.agent_result_of sample_format
       {| Agent.messages :=
            Some ([Agent.HumanMessage (PyStr "hi")]
                  ++ [Agent.AIMessage (PyStr " ") []])%list |})
  = (App.st_markdown, "Agent finished, but the final message was empty.").
Proof.
  apply (@stalled_turn_is_not_shown_as_error sample_format
           [Agent.HumanMessage (PyStr "hi")] (PyStr " ") []).
  reflexivity.
Defined.
